(** * AzureChatMistralAI: the Azure endpoint adapter of langchain_mistralai

    A shallow embedding of
    [libs/partners/mistralai/langchain_mistralai/chat_models/azure.py]
    and the properties of its validator and of its parameter accessors.

    Python values are modelled as the code uses them: [Optional[T]] fields
    as [option T], dictionaries as finite maps with string keys, [float]
    as IEEE 754 binary64 ([spec_float] restricted to valid binary64
    values), and the mutable instance [self], the process environment and
    the HTTP client objects built so far as the state of a small
    state-and-exception monad. The constructors of the HTTP library are a
    parameter: they may raise, depending on their arguments and on the
    environment, and the properties hold for every such behaviour. *)

From Stdlib Require Import ZArith QArith Qpower Lia SpecFloat.
From stdpp Require Import gmap strings.

Open Scope Z_scope.
Open Scope string_scope.

(** ** Python floats *)

Module PyFloat.

Definition prec : Z := 53.
Definition emax : Z := 1024.

(** A Python [float] is an IEEE 754 binary64 value. *)
Record float := mk {
  repr :> spec_float;
  repr_valid : valid_binary prec emax repr = true
}.

(** The literals [0] and [1] of the range checks. Python compares an
    [int] with a [float] by exact value, and both literals are exactly
    representable, so the comparison is the binary64 one against [0.0]
    and [1.0]. *)
Definition zero : spec_float := S754_zero false.
Definition one : spec_float := S754_finite false 4503599627370496 (-52).

(** [a <= b] on floats: false whenever an operand is NaN. *)
Definition le (a b : spec_float) : bool := SFleb a b.

(** The chained comparison [0 <= x <= 1], i.e. [0 <= x and x <= 1]. *)
Definition between_0_and_1 (x : spec_float) : bool :=
  le zero x && le x one.

(** The rational number a float denotes; infinities and NaN denote none. *)
Definition value (x : spec_float) : option Q :=
  match x with
  | S754_zero _ => Some 0%Q
  | S754_finite s m e =>
      Some ((if s then - inject_Z (Zpos m) else inject_Z (Zpos m)) * 2 ^ e)%Q
  | S754_infinity _ | S754_nan => None
  end.

(** Membership in the closed interval [[0.0, 1.0]], by denoted value. *)
Definition in_unit_interval (x : spec_float) : Prop :=
  match value x with
  | Some q => (0 <= q)%Q /\ (q <= 1)%Q
  | None => False
  end.

End PyFloat.

(** ** Python values the adapter handles *)

(** pydantic's [SecretStr]: the text is reached through
    [get_secret_value] only. *)
Record SecretStr := { get_secret_value : string }.

(** Truth value of an [Optional[str]]: [None] and the empty string are
    false. *)
Definition truthy (o : option string) : bool :=
  match o with
  | Some s => negb (String.eqb s "")
  | None => false
  end.

(** [a or b] on [Optional[str]] operands. *)
Definition py_or (a b : option string) : option string :=
  if truthy a then a else b.

(** What an f-string writes for an [Optional[str]] placeholder. *)
Definition format_value (o : option string) : string :=
  match o with
  | Some s => s
  | None => "None"
  end.

(** [needle in haystack] on strings. *)
Definition contains (needle haystack : string) : bool :=
  match String.index 0 needle haystack with
  | Some _ => true
  | None => false
  end.

(** The values stored in the parameter dictionaries. *)
Inductive pyval :=
  | PyNone
  | PyStr (s : string)
  | PyInt (z : Z)
  | PyFloat (f : PyFloat.float).

Definition of_optional {A : Type} (inj : A -> pyval) (o : option A) : pyval :=
  match o with
  | Some a => inj a
  | None => PyNone
  end.

(** [v is not None] *)
Definition is_not_None (v : pyval) : Prop := v <> PyNone.

#[global] Instance is_not_None_dec (v : pyval) : Decision (is_not_None v).
Proof.
  unfold is_not_None.
  destruct v; [right; intros H; now apply H | left .. ]; discriminate.
Defined.

(** A [Dict[str, Any]]. Equality of Python dictionaries ignores insertion
    order, as equality of finite maps does. *)
Abbreviation dict := (gmap string pyval).

(** [d.update(other)], also the meaning of [{**d, **other}]: on a shared
    key the entry of [other] wins. *)
Definition dict_update (d other : dict) : dict := other ∪ d.

(** ** HTTP client objects *)

Module httpx.

Inductive class := Client | AsyncClient.

(** A constructed client object, recorded as the call that built it.
    [oid] is its identity: two objects built from equal arguments are still
    two objects. [base_url], [headers] and [timeout] are the keyword
    arguments the constructor was called with; what the library derives
    from them (a normalised URL, its default headers) is not represented. *)
Record object := {
  cls : class;
  oid : nat;
  base_url : option string;
  headers : gmap string string;
  timeout : Z
}.

(** An exception raised inside the library, by class name and message: a
    [UnicodeEncodeError] for a header value outside ASCII, an [InvalidURL]
    for a malformed URL, and so on. *)
Record error := {
  error_class : string;
  error_message : string
}.

(** A constructor call seen from its caller. From the class, the keyword
    arguments [base_url], [headers] and [timeout], and the process
    environment (the library reads proxy settings there) it either raises
    or builds the object. *)
Definition constructor : Type :=
  class -> option string -> gmap string string -> Z ->
  gmap string string -> option error.

End httpx.

(** ** The model instance *)

(** The fields the adapter reads or writes. [azure_endpoint] and
    [mistral_api_key] are declared by the adapter, the others by its base
    class [ChatMistralAI]; every field the code tests against [None] or for
    truth is optional here. [not self.client] holds exactly when the field
    is [None]: a client object is always true, its classes define neither
    [__bool__] nor [__len__]. *)
Record AzureChatMistralAI := {
  azure_endpoint : option string;
  mistral_api_key : option SecretStr;
  endpoint : option string;
  client : option httpx.object;
  async_client : option httpx.object;
  timeout : Z;
  model : option string;
  temperature : option PyFloat.float;
  max_tokens : option Z;
  top_p : option PyFloat.float;
  random_seed : option Z
}.

Definition with_endpoint (v : option string) (self : AzureChatMistralAI) :=
  {| azure_endpoint := azure_endpoint self;
     mistral_api_key := mistral_api_key self;
     endpoint := v;
     client := client self;
     async_client := async_client self;
     timeout := timeout self;
     model := model self;
     temperature := temperature self;
     max_tokens := max_tokens self;
     top_p := top_p self;
     random_seed := random_seed self |}.

Definition with_client (v : option httpx.object) (self : AzureChatMistralAI) :=
  {| azure_endpoint := azure_endpoint self;
     mistral_api_key := mistral_api_key self;
     endpoint := endpoint self;
     client := v;
     async_client := async_client self;
     timeout := timeout self;
     model := model self;
     temperature := temperature self;
     max_tokens := max_tokens self;
     top_p := top_p self;
     random_seed := random_seed self |}.

Definition with_async_client (v : option httpx.object) (self : AzureChatMistralAI) :=
  {| azure_endpoint := azure_endpoint self;
     mistral_api_key := mistral_api_key self;
     endpoint := endpoint self;
     client := client self;
     async_client := v;
     timeout := timeout self;
     model := model self;
     temperature := temperature self;
     max_tokens := max_tokens self;
     top_p := top_p self;
     random_seed := random_seed self |}.

(** ** State and exceptions *)

(** What a method can observe and change: the process environment, the
    object it is bound to (mutated in place, so assignments made before a
    [raise] stay), and the client objects constructed so far, oldest
    first. *)
Record World := {
  os_environ : gmap string string;
  this : AzureChatMistralAI;
  httpx_objects : list httpx.object
}.

(** [ValueError] is what the validator itself raises; [HttpxError] is an
    exception that comes out of a constructor call of the library. *)
Inductive exn :=
  | ValueError (msg : string)
  | HttpxError (e : httpx.error).

Inductive outcome (A : Type) :=
  | Return (a : A)
  | Raise (e : exn).
Arguments Return {A} a.
Arguments Raise {A} e.

Definition M (A : Type) : Type := World -> World * outcome A.

#[global] Instance M_ret : MRet M := fun A a w => (w, Return a).

#[global] Instance M_bind : MBind M := fun A B f m w =>
  match m w with
  | (w', Return a) => f a w'
  | (w', Raise e) => (w', Raise e)
  end.

Definition raise {A : Type} (e : exn) : M A := fun w => (w, Raise e).

Definition get_self : M AzureChatMistralAI := fun w => (w, Return (this w)).

Definition modify_self (f : AzureChatMistralAI -> AzureChatMistralAI) : M unit :=
  fun w =>
    ({| os_environ := os_environ w;
        this := f (this w);
        httpx_objects := httpx_objects w |}, Return tt).

(** [os.environ.get(name)] *)
Definition os_environ_get (name : string) : M (option string) :=
  fun w => (w, Return (os_environ w !! name)).

(** The library is an external collaborator: its constructors are taken as
    they come, any function of their arguments and of the environment that
    raises or builds. Everything below is stated for every such
    constructor. *)
Section Validator.

Variable construct : httpx.constructor.

(** [httpx.Client(...)] and [httpx.AsyncClient(...)]: the call raises, or it
    yields a new object, recorded in the world. *)
Definition httpx_new (c : httpx.class) (base_url : option string)
    (headers : gmap string string) (timeout : Z) : M httpx.object :=
  fun w =>
    match construct c base_url headers timeout (os_environ w) with
    | Some err => (w, Raise (HttpxError err))
    | None =>
        let o := {| httpx.cls := c;
                    httpx.oid := length (httpx_objects w);
                    httpx.base_url := base_url;
                    httpx.headers := headers;
                    httpx.timeout := timeout |} in
        ({| os_environ := os_environ w;
            this := this w;
            httpx_objects := httpx_objects w ++ [o] |}, Return o)
    end.

(** ** The adapter *)

(** The header dictionary both clients are built with. *)
Definition client_headers (api_key_str : option string) : gmap string string :=
  <["Authorization" := "Bearer " ++ format_value api_key_str]>
    (<["Accept" := "application/json"]>
       (<["Content-Type" := "application/json"]> ∅)).

(** [not 0 <= x <= 1] guarded by [x is not None]. *)
Definition out_of_range (x : option PyFloat.float) : bool :=
  match x with
  | Some f => negb (PyFloat.between_0_and_1 (PyFloat.repr f))
  | None => false
  end.

(** [validate_environment], the [model_validator(mode="after")] hook. *)
Definition validate_environment : M AzureChatMistralAI :=
  self ← get_self;
  let api_key_str : option string :=
    match mistral_api_key self with
    | Some secret => Some (get_secret_value secret)
    | None => None
    end in
  base_url_str ←
    (if truthy (azure_endpoint self) then mret (azure_endpoint self)
     else from_environ ← os_environ_get "AZURE_MISTRAL_ENDPOINT";
          mret (py_or from_environ None));
  if negb (truthy base_url_str)
  then raise (ValueError "Must set AZURE_MISTRAL_ENDPOINT")
  else
    modify_self (with_endpoint base_url_str);;
    self ← get_self;
    match client self with
    | None =>
        c ← httpx_new httpx.Client base_url_str
              (client_headers api_key_str) (timeout self);
        modify_self (with_client (Some c))
    | Some _ => mret tt
    end;;
    self ← get_self;
    match async_client self with
    | None =>
        c ← httpx_new httpx.AsyncClient base_url_str
              (client_headers api_key_str) (timeout self);
        modify_self (with_async_client (Some c))
    | Some _ => mret tt
    end;;
    self ← get_self;
    if out_of_range (temperature self)
    then raise (ValueError "temperature must be in the range [0.0, 1.0]")
    else
      if out_of_range (top_p self)
      then raise (ValueError "top_p must be in the range [0.0, 1.0]")
      else mret self.

(** [_default_params] *)
Definition _default_params : M dict :=
  self ← get_self;
  let defaults : dict :=
    <["random_seed" := of_optional PyInt (random_seed self)]>
      (<["top_p" := of_optional PyFloat (top_p self)]>
         (<["max_tokens" := of_optional PyInt (max_tokens self)]>
            (<["temperature" := of_optional PyFloat (temperature self)]>
               (<["model" := of_optional PyStr (model self)]> ∅)))) in
  let filtered : dict := filter (fun kv => is_not_None kv.2) defaults in
  mret filtered.

(** [get_lc_namespace] and [is_lc_serializable], class methods. *)
Definition get_lc_namespace : list string :=
  ["langchain_mistralai"; "chat_models"; "azure"].

Definition is_lc_serializable : bool := true.

(** [_llm_type] *)
Definition _llm_type : M string := mret "azure-mistral-chat".

(** [lc_secrets] *)
Definition lc_secrets : M (gmap string string) :=
  mret (<["mistral_api_key" := "AZURE_MISTRAL_API_KEY"]> ∅).

(** The methods that extend the base class [ChatMistralAI]. The base class
    is an external collaborator of this file: what its methods compute is
    left open, they are any computations of the right type. *)
Section Inherited.

Variable BaseMessage : Type.

(** [super()._identifying_params] *)
Variable super_identifying_params : M dict.

(** [super().lc_attributes] *)
Variable super_lc_attributes : M dict.

(** [super()._create_message_dicts(messages, stop)] *)
Variable super_create_message_dicts :
  list BaseMessage -> option (list string) -> M (list dict * dict).

(** [_identifying_params]: the dictionary display evaluates
    [self.azure_endpoint] first, then unpacks the base mapping over it. *)
Definition _identifying_params : M dict :=
  self ← get_self;
  let own : dict := <["azure_endpoint" := of_optional PyStr (azure_endpoint self)]> ∅ in
  inherited ← super_identifying_params;
  mret (dict_update own inherited).

(** [lc_attributes]: the mapping the base returns is updated with the
    adapter's entry. *)
Definition lc_attributes : M dict :=
  attributes ← super_lc_attributes;
  self ← get_self;
  mret (dict_update attributes
          (<["azure_endpoint" := of_optional PyStr (azure_endpoint self)]> ∅)).

(** [_create_message_dicts] *)
Definition _create_message_dicts (messages : list BaseMessage)
    (stop : option (list string)) : M (list dict * dict) :=
  '(message_dicts, params) ← super_create_message_dicts messages stop;
  mret (message_dicts, params).

End Inherited.

(** ** Field defaults read from the environment *)

(** Modelled from the spec: [langchain_core.utils.secret_from_env], the
    default factory of [mistral_api_key], is not part of this file. The
    specification has the credential "resolved from one of two environment
    variables in priority order", the first "checked before" the second:
    the value of the first listed variable that is set, wrapped as a
    secret, else the default. *)
Definition secret_from_env (keys : list string) (default : option string)
    : M (option SecretStr) :=
  fun w =>
    (w, Return
          (match omap (fun k => os_environ w !! k) keys with
           | v :: _ => Some {| get_secret_value := v |}
           | [] => (fun d => {| get_secret_value := d |}) <$> default
           end)).

(** The [default_factory] of the field [mistral_api_key]. *)
Definition mistral_api_key_default_factory : M (option SecretStr) :=
  secret_from_env ["AZURE_MISTRAL_API_KEY"; "MISTRAL_API_KEY"] None.

(** Population of the field [mistral_api_key] (alias [api_key]): the
    explicit argument when one is passed, else the default factory. *)
Definition populate_mistral_api_key (api_key : option (option SecretStr))
    : M (option SecretStr) :=
  match api_key with
  | Some explicit => mret explicit
  | None => mistral_api_key_default_factory
  end.

(** ** Vocabulary of the properties *)

(** The value [base_url_str] is bound to in [validate_environment]. *)
Definition resolved_endpoint (w : World) : option string :=
  if truthy (azure_endpoint (this w)) then azure_endpoint (this w)
  else py_or (os_environ w !! "AZURE_MISTRAL_ENDPOINT") None.

(** An endpoint can be resolved: the field or the variable holds a
    non-empty string. *)
Definition endpoint_resolvable (w : World) : bool :=
  truthy (azure_endpoint (this w))
  || truthy (os_environ w !! "AZURE_MISTRAL_ENDPOINT").

(** A value that is present and lies outside the closed interval
    [[0.0, 1.0]]. *)
Definition outside_unit_interval (x : option PyFloat.float) : Prop :=
  exists f, x = Some f /\ ~ PyFloat.in_unit_interval (PyFloat.repr f).

(** What the library answers when a client of class [c] is constructed
    with the arguments the validator passes in world [w]. *)
Definition construct_call (w : World) (c : httpx.class) : option httpx.error :=
  construct c (resolved_endpoint w)
    (client_headers
       match mistral_api_key (this w) with
       | Some secret => Some (get_secret_value secret)
       | None => None
       end)
    (timeout (this w)) (os_environ w).

(** The exception, if any, that comes out of the constructor calls the
    validator makes in world [w]: only a missing handle is constructed, the
    synchronous one first. *)
Definition construction_error (w : World) : option httpx.error :=
  match client (this w), construct_call w httpx.Client with
  | None, Some e => Some e
  | _, _ =>
      match async_client (this w), construct_call w httpx.AsyncClient with
      | None, Some e => Some e
      | _, _ => None
      end
  end.

(** The object such a call builds when [n] objects exist already. *)
Definition built_object (w : World) (c : httpx.class) (n : nat) : httpx.object :=
  {| httpx.cls := c;
     httpx.oid := n;
     httpx.base_url := resolved_endpoint w;
     httpx.headers :=
       client_headers
         match mistral_api_key (this w) with
         | Some secret => Some (get_secret_value secret)
         | None => None
         end;
     httpx.timeout := timeout (this w) |}.

(** The number of client objects an instance still lacks. *)
Definition missing_clients (self : AzureChatMistralAI) : nat :=
  (if client self is Some _ then 0 else 1)
  + (if async_client self is Some _ then 0 else 1).

(** ** Sample values *)

Definition float_0 : PyFloat.float := PyFloat.mk PyFloat.zero eq_refl.
Definition float_1 : PyFloat.float := PyFloat.mk PyFloat.one eq_refl.

(** [0.5] and [1.5] *)
Definition float_0_5 : PyFloat.float :=
  PyFloat.mk (S754_finite false 4503599627370496 (-53)) eq_refl.
Definition float_1_5 : PyFloat.float :=
  PyFloat.mk (S754_finite false 6755399441055744 (-52)) eq_refl.

(** An instance whose fields are populated but not yet validated. *)
Definition populated (azure : option string) (key : option SecretStr)
    (temp : option PyFloat.float) : AzureChatMistralAI :=
  {| azure_endpoint := azure;
     mistral_api_key := key;
     endpoint := None;
     client := None;
     async_client := None;
     timeout := 120;
     model := Some "mistral-small";
     temperature := temp;
     max_tokens := None;
     top_p := Some float_1;
     random_seed := None |}.

Definition world_of (environ : list (string * string))
    (self : AzureChatMistralAI) : World :=
  {| os_environ := list_to_map environ;
     this := self;
     httpx_objects := [] |}.

(** The world seen with another environment, or with another object as
    [self]. *)
Definition with_environ (environ : gmap string string) (w : World) : World :=
  {| os_environ := environ;
     this := this w;
     httpx_objects := httpx_objects w |}.

Definition with_this (self : AzureChatMistralAI) (w : World) : World :=
  {| os_environ := os_environ w;
     this := self;
     httpx_objects := httpx_objects w |}.

Definition with_mistral_api_key (v : option SecretStr)
    (self : AzureChatMistralAI) :=
  {| azure_endpoint := azure_endpoint self;
     mistral_api_key := v;
     endpoint := endpoint self;
     client := client self;
     async_client := async_client self;
     timeout := timeout self;
     model := model self;
     temperature := temperature self;
     max_tokens := max_tokens self;
     top_p := top_p self;
     random_seed := random_seed self |}.

(** [float("nan")] and [float("inf")] *)
Definition float_nan : PyFloat.float := PyFloat.mk S754_nan eq_refl.
Definition float_inf : PyFloat.float :=
  PyFloat.mk (S754_infinity false) eq_refl.

(** A string of 7-bit characters only. *)
Fixpoint is_ascii (s : string) : bool :=
  match s with
  | EmptyString => true
  | String c rest => (Ascii.nat_of_ascii c <? 128)%nat && is_ascii rest
  end.

(** The constructor of the examples. As the library does, it refuses a
    header value that is not ASCII; it builds in every other case, which is
    what the library does for the URLs, timeouts and environments of the
    examples. *)
Definition ascii_headers_only : httpx.constructor :=
  fun _ _ headers _ _ =>
    if forallb (fun kv : string * string => is_ascii kv.2) (map_to_list headers)
    then None
    else Some {| httpx.error_class := "UnicodeEncodeError";
                 httpx.error_message := "'ascii' codec can't encode character" |}.

(** The one-letter key [\u00e9], in UTF-8. *)
Definition key_e_acute : SecretStr :=
  {| get_secret_value :=
       String (Ascii.ascii_of_nat 195) (String (Ascii.ascii_of_nat 169) "") |}.

(** The three error messages of the validator. *)
Definition missing_endpoint_error : exn :=
  ValueError "Must set AZURE_MISTRAL_ENDPOINT".
Definition temperature_error : exn :=
  ValueError "temperature must be in the range [0.0, 1.0]".
Definition top_p_error : exn :=
  ValueError "top_p must be in the range [0.0, 1.0]".

(** * Properties *)

(** ** The range test on binary64 values *)

Section FloatFacts.

Import PyFloat.

Lemma digits2_pos_bounds (m : positive) :
  2 ^ (Zpos (digits2_pos m) - 1) <= Zpos m < 2 ^ Zpos (digits2_pos m).
Proof.
  induction m as [m IH | m IH |]; cbn [digits2_pos].
  - rewrite Pos2Z.inj_succ.
    replace (Z.succ (Z.pos (digits2_pos m)) - 1)
      with (Z.succ (Z.pos (digits2_pos m) - 1)) by lia.
    rewrite !Z.pow_succ_r by lia. lia.
  - rewrite Pos2Z.inj_succ.
    replace (Z.succ (Z.pos (digits2_pos m)) - 1)
      with (Z.succ (Z.pos (digits2_pos m) - 1)) by lia.
    rewrite !Z.pow_succ_r by lia. lia.
  - cbn. lia.
Qed.

Lemma two_pow_pos (e : Z) : (0 < 2 ^ e)%Q.
Proof. apply Qpower_0_lt. reflexivity. Qed.

Lemma inject_pow2 (n : Z) : 0 <= n -> (inject_Z (2 ^ n) == 2 ^ n)%Q.
Proof. intros Hn. now rewrite Zpower_Qpower. Qed.

(** A valid finite float has at most 53 significant bits, and exactly 53
    above the smallest exponent. *)
Lemma bounded_digits (m : positive) (e : Z) :
  bounded prec emax m e = true ->
  Zpos (digits2_pos m) <= 53 /\
  (-1074 < e -> Zpos (digits2_pos m) = 53).
Proof.
  unfold bounded, canonical_mantissa, fexp, SpecFloat.emin, prec, emax.
  intros H. apply andb_prop in H as [H _]. apply Z.eqb_eq in H.
  lia.
Qed.

(** Below the exponent of [1.0] a valid float is smaller than 1. *)
Lemma small_exponent_le_1 (m : positive) (e : Z) :
  Zpos (digits2_pos m) <= 53 -> e < -52 ->
  (inject_Z (Zpos m) * 2 ^ e <= 1)%Q.
Proof.
  intros Hd He.
  pose proof (digits2_pos_bounds m) as [_ Hm].
  assert (Hm' : Zpos m <= 2 ^ 53).
  { assert (2 ^ Zpos (digits2_pos m) <= 2 ^ 53)
      by (apply Z.pow_le_mono_r; lia). lia. }
  assert (H1 : (inject_Z (Zpos m) <= 2 ^ 53)%Q).
  { rewrite <- inject_pow2 by lia. now rewrite <- Zle_Qle. }
  assert (H2 : (2 ^ e <= 2 ^ (-53))%Q).
  { apply Qpower_le_compat_l; [lia | discriminate]. }
  assert (H3 : (inject_Z (Zpos m) * 2 ^ e <= 2 ^ 53 * 2 ^ (-53))%Q).
  { apply Qmult_le_compat_nonneg; split; try assumption.
    - now rewrite <- (Zle_Qle 0).
    - apply Qlt_le_weak, two_pow_pos. }
  eapply Qle_trans; [exact H3 |]. now vm_compute.
Qed.

(** Above the exponent of [1.0] a valid float is at least 2. *)
Lemma large_exponent_gt_1 (m : positive) (e : Z) :
  Zpos (digits2_pos m) = 53 -> -52 < e ->
  (1 < inject_Z (Zpos m) * 2 ^ e)%Q.
Proof.
  intros Hd He.
  pose proof (digits2_pos_bounds m) as [Hm _]. rewrite Hd in Hm.
  assert (H1 : (2 ^ 52 <= inject_Z (Zpos m))%Q).
  { rewrite <- inject_pow2 by lia. now rewrite <- Zle_Qle. }
  assert (H2 : (2 ^ (-51) <= 2 ^ e)%Q).
  { apply Qpower_le_compat_l; [lia | discriminate]. }
  assert (H3 : (2 ^ 52 * 2 ^ (-51) <= inject_Z (Zpos m) * 2 ^ e)%Q).
  { apply Qmult_le_compat_nonneg; split; try assumption; now vm_compute. }
  eapply Qlt_le_trans; [| exact H3]. now vm_compute.
Qed.

Lemma two_pow_m52 : (2 ^ (-52))%Q = (1 # 4503599627370496)%Q.
Proof. vm_compute. reflexivity. Qed.

(** At the exponent of [1.0] the mantissas decide. *)
Lemma same_exponent_le_1 (m : positive) :
  (inject_Z (Zpos m) * 2 ^ (-52) <= 1)%Q <-> (m <= 4503599627370496)%positive.
Proof.
  rewrite two_pow_m52. unfold Qle, Qmult, inject_Z; cbn [Qnum Qden].
  rewrite !Z.mul_1_r, Pos.mul_1_l. reflexivity.
Qed.

(** The comparison the validator runs agrees with the interval of the
    specification on every binary64 value, NaN and infinities included. *)
Lemma between_0_and_1_spec (x : float) :
  between_0_and_1 x = true <-> in_unit_interval x.
Proof.
  destruct x as [x Hx]; cbn [repr].
  unfold between_0_and_1, in_unit_interval, le, SFleb.
  destruct x as [s | s | | s m e]; cbn [value SFcompare zero one].
  - split; [intros _ | reflexivity]. split; discriminate.
  - split; [destruct s; discriminate | intros []].
  - split; [discriminate | intros []].
  - cbn [valid_binary] in Hx.
    destruct (bounded_digits m e Hx) as [Hle Heq].
    assert (Hpos : (0 < inject_Z (Zpos m) * 2 ^ e)%Q).
    { apply Qmult_lt_0_compat; [reflexivity | apply two_pow_pos]. }
    destruct s.
    + split; [discriminate |].
      intros [H0 _]. exfalso.
      assert (Hneg : (- inject_Z (Zpos m) * 2 ^ e
                      == - (inject_Z (Zpos m) * 2 ^ e))%Q) by ring.
      rewrite Hneg in H0.
      apply (Qopp_le_compat 0) in H0. rewrite Qopp_involutive in H0.
      exact (Qlt_not_le _ _ Hpos H0).
    + cbn [andb]. rewrite Pos.compare_cont_spec. cbn [Pos.switch_Eq].
      apply Qlt_le_weak in Hpos.
      destruct (Z.compare_spec e (-52)) as [-> | Hlt | Hgt].
      * destruct (Pos.compare_spec m 4503599627370496) as [-> | Hm | Hm].
        -- split; [intros _ | reflexivity]. split; [exact Hpos |].
           apply (proj2 (same_exponent_le_1 _)), Pos.le_refl.
        -- split; [intros _ | reflexivity]. split; [exact Hpos |].
           apply (proj2 (same_exponent_le_1 m)), Pos.lt_le_incl, Hm.
        -- split; [discriminate |].
           intros [_ H1]. exfalso.
           exact (proj1 (Pos.lt_nle _ _) Hm (proj1 (same_exponent_le_1 m) H1)).
      * split; [intros _ | reflexivity]. split; [exact Hpos |].
        now apply small_exponent_le_1.
      * split; [discriminate |].
        intros [_ H1]. exfalso.
        apply (Qlt_not_le _ _ (large_exponent_gt_1 m e (Heq ltac:(lia)) Hgt) H1).
Qed.

End FloatFacts.

(** The guard of the two range errors, in the words of the interval. *)
Lemma out_of_range_spec (x : option PyFloat.float) :
  out_of_range x = true <-> outside_unit_interval x.
Proof.
  unfold out_of_range, outside_unit_interval. destruct x as [f |].
  - rewrite negb_true_iff, <- not_true_iff_false, between_0_and_1_spec.
    split.
    + intros H. exists f. auto.
    + intros (g & [= <-] & H). exact H.
  - split; [discriminate | intros (f & [=] & _)].
Qed.

Lemma in_range_spec (x : option PyFloat.float) :
  out_of_range x = false <-> ~ outside_unit_interval x.
Proof. rewrite <- out_of_range_spec. now destruct (out_of_range x). Qed.

(** ** The validator, case by case *)

Ltac unfold_validator :=
  unfold validate_environment, mbind, M_bind, mret, M_ret, get_self,
    os_environ_get, modify_self, httpx_new, raise; cbn.

Ltac split_world w :=
  destruct w as [env [azure key ep cl acl tmo mo te mt tp rs] objs];
  cbn in *.

Ltac validator_step :=
  match goal with
  | H : truthy ?x = _ |- context [truthy ?x] => rewrite H
  | H : out_of_range ?x = _ |- context [out_of_range ?x] => rewrite H
  | H : construct ?c ?u ?h ?t ?e = _ |- context [construct ?c ?u ?h ?t ?e] =>
      rewrite H
  | |- context [truthy ?x] => destruct (truthy x) eqn:?
  | |- context [out_of_range ?x] => destruct (out_of_range x) eqn:?
  end; cbn.

Lemma truthy_py_or_None (o : option string) :
  truthy (py_or o None) = truthy o.
Proof. unfold py_or. now destruct (truthy o) eqn:E. Qed.

Lemma py_or_None_truthy (o : option string) :
  truthy o = true -> py_or o None = o.
Proof. unfold py_or. now intros ->. Qed.

Lemma resolved_endpoint_truthy (w : World) :
  truthy (resolved_endpoint w) = endpoint_resolvable w.
Proof.
  unfold resolved_endpoint, endpoint_resolvable.
  destruct (truthy (azure_endpoint (this w))) eqn:E; cbn.
  - exact E.
  - apply truthy_py_or_None.
Qed.

(** Without a resolvable endpoint the validator raises at once and has
    written nothing. *)
Lemma validate_environment_unresolved (w : World) :
  endpoint_resolvable w = false ->
  validate_environment w
  = (w, Raise (ValueError "Must set AZURE_MISTRAL_ENDPOINT")).
Proof.
  unfold endpoint_resolvable. intros H.
  apply orb_false_elim in H as [Ha He].
  unfold_validator. rewrite Ha; cbn.
  rewrite truthy_py_or_None, He; cbn. reflexivity.
Qed.

(** The first steps with a resolvable endpoint: the endpoint is stored, then
    the synchronous client is constructed if it is missing. A constructor
    that raises ends the run there. *)
Lemma validate_environment_client_refused (w : World) (e : httpx.error) :
  endpoint_resolvable w = true ->
  client (this w) = None ->
  construct_call w httpx.Client = Some e ->
  validate_environment w
  = (with_this (with_endpoint (resolved_endpoint w) (this w)) w,
     Raise (HttpxError e)).
Proof.
  unfold endpoint_resolvable, construct_call, resolved_endpoint, with_this.
  intros H Hc He. unfold_validator. split_world w. subst cl.
  destruct (truthy azure) eqn:Ha; cbn in *.
  - rewrite Ha; cbn. rewrite He. reflexivity.
  - rewrite truthy_py_or_None, H; cbn.
    rewrite (py_or_None_truthy _ H) in *. rewrite He. reflexivity.
Qed.

Lemma validate_environment_async_refused (w : World) (e : httpx.error) :
  endpoint_resolvable w = true ->
  is_Some (client (this w)) \/ construct_call w httpx.Client = None ->
  async_client (this w) = None ->
  construct_call w httpx.AsyncClient = Some e ->
  let self := this w in
  let c := built_object w httpx.Client (length (httpx_objects w)) in
  let built := if client self is Some _ then [] else [c] in
  validate_environment w
  = ({| os_environ := os_environ w;
        this := with_client (Some (default c (client self)))
                  (with_endpoint (resolved_endpoint w) self);
        httpx_objects := httpx_objects w ++ built |},
     Raise (HttpxError e)).
Proof.
  unfold endpoint_resolvable, construct_call, built_object, resolved_endpoint.
  intros H Hc Ha He. unfold_validator. split_world w. subst acl.
  destruct (truthy azure) eqn:Hz; cbn in *.
  - rewrite Hz; cbn.
    destruct cl as [c0 |]; cbn.
    + rewrite He, app_nil_r. reflexivity.
    + destruct Hc as [[? [=]] | Hc]. rewrite Hc; cbn. rewrite He. reflexivity.
  - rewrite truthy_py_or_None, H; cbn.
    rewrite (py_or_None_truthy _ H) in *.
    destruct cl as [c0 |]; cbn.
    + rewrite He, app_nil_r. reflexivity.
    + destruct Hc as [[? [=]] | Hc]. rewrite Hc; cbn. rewrite He. reflexivity.
Qed.

(** With a resolvable endpoint and constructors that do not raise, the
    validator stores the endpoint, builds the clients that are missing, and
    only then tests the two ranges. *)
Lemma validate_environment_resolved (w : World) :
  endpoint_resolvable w = true ->
  construction_error w = None ->
  let self := this w in
  let url := resolved_endpoint w in
  let c := built_object w httpx.Client (length (httpx_objects w)) in
  let built := if client self is Some _ then [] else [c] in
  let a := built_object w httpx.AsyncClient
             (length (httpx_objects w ++ built)) in
  let built' := if async_client self is Some _ then [] else [a] in
  let self' :=
    with_async_client (Some (default a (async_client self)))
      (with_client (Some (default c (client self)))
         (with_endpoint url self)) in
  validate_environment w
  = ({| os_environ := os_environ w;
        this := self';
        httpx_objects := (httpx_objects w ++ built) ++ built' |},
     if out_of_range (temperature self)
     then Raise (ValueError "temperature must be in the range [0.0, 1.0]")
     else if out_of_range (top_p self)
          then Raise (ValueError "top_p must be in the range [0.0, 1.0]")
          else Return self').
Proof.
  unfold endpoint_resolvable, construction_error, construct_call,
    built_object, resolved_endpoint.
  intros H Hok. unfold_validator. split_world w.
  destruct (truthy azure) eqn:Ha; cbn in *.
  - rewrite Ha; cbn.
    destruct cl, acl; cbn in *; rewrite ?app_nil_r;
      repeat match type of Hok with
             | context [construct ?c ?u ?h ?t ?e] =>
                 destruct (construct c u h t e) eqn:?; [discriminate Hok |]
             end;
      cbn; repeat validator_step; reflexivity.
  - rewrite truthy_py_or_None, H; cbn.
    rewrite (py_or_None_truthy _ H) in *.
    destruct cl, acl; cbn in *; rewrite ?app_nil_r;
      repeat match type of Hok with
             | context [construct ?c ?u ?h ?t ?e] =>
                 destruct (construct c u h t e) eqn:?; [discriminate Hok |]
             end;
      cbn; repeat validator_step; reflexivity.
Qed.

(** The three ways the constructor calls can go. *)
Lemma construction_error_cases (w : World) :
  construction_error w = None
  \/ (exists e, construction_error w = Some e
                /\ client (this w) = None
                /\ construct_call w httpx.Client = Some e)
  \/ (exists e, construction_error w = Some e
                /\ (is_Some (client (this w))
                    \/ construct_call w httpx.Client = None)
                /\ async_client (this w) = None
                /\ construct_call w httpx.AsyncClient = Some e).
Proof.
  unfold construction_error.
  destruct (client (this w)) as [c |] eqn:Hc,
           (construct_call w httpx.Client) as [e1 |] eqn:H1,
           (async_client (this w)) as [a |] eqn:Ha,
           (construct_call w httpx.AsyncClient) as [e2 |] eqn:H2;
    eauto 10.
Qed.

Lemma client_headers_authorization (api_key_str : option string) :
  client_headers api_key_str !! "Authorization"
  = Some ("Bearer " ++ format_value api_key_str).
Proof. unfold client_headers. apply lookup_insert_eq. Qed.

(** Case analysis on a run with a resolvable endpoint: the constructors do
    not raise, or the first call raises, or the second one does. *)
Ltac validator_cases w Hres :=
  let Hok := fresh "Hok" in
  let err := fresh "err" in
  let Herr := fresh "Herr" in
  let Hc := fresh "Hclient" in
  let Ha := fresh "Hasync" in
  let He := fresh "Hcall" in
  destruct (construction_error_cases w)
    as [Hok | [(err & Herr & Hc & He) | (err & Herr & Hc & Ha & He)]];
  [ rewrite (validate_environment_resolved w Hres Hok)
  | rewrite (validate_environment_client_refused w err Hres Hc He)
  | rewrite (validate_environment_async_refused w err Hres Hc Ha He) ];
  cbn.

(** ** Endpoint resolution *)

(** C2. When no endpoint field is supplied and AZURE_MISTRAL_ENDPOINT is
    unset, the validator raises a configuration error whose message names
    AZURE_MISTRAL_ENDPOINT; it returns no instance and leaves the world as
    it was. *)
Theorem validate_environment_missing_endpoint (w : World) :
  azure_endpoint (this w) = None ->
  os_environ w !! "AZURE_MISTRAL_ENDPOINT" = None ->
  exists msg : string,
    validate_environment w = (w, Raise (ValueError msg))
    /\ contains "AZURE_MISTRAL_ENDPOINT" msg = true.
Proof.
  intros Ha He. exists "Must set AZURE_MISTRAL_ENDPOINT". split.
  - apply validate_environment_unresolved.
    unfold endpoint_resolvable. now rewrite Ha, He.
  - reflexivity.
Qed.

(** C3, amended. The endpoint is resolved as the explicit azure_endpoint
    field when it is present and non-empty, otherwise as the value of
    AZURE_MISTRAL_ENDPOINT; whenever that yields a non-empty value the
    validator stores it in the endpoint field, over any prior value, and an
    instance it returns is the stored one. *)
Theorem validate_environment_stores_endpoint (w : World) :
  endpoint_resolvable w = true ->
  let w' := (validate_environment w).1 in
  (truthy (azure_endpoint (this w)) = true ->
   endpoint (this w') = azure_endpoint (this w))
  /\ (truthy (azure_endpoint (this w)) = false ->
      endpoint (this w') = os_environ w !! "AZURE_MISTRAL_ENDPOINT")
  /\ truthy (endpoint (this w')) = true
  /\ (forall r, (validate_environment w).2 = Return r -> r = this w').
Proof.
  intros Hres. cbn zeta.
  pose proof (resolved_endpoint_truthy w) as Ht. rewrite Hres in Ht.
  assert (Hfield : truthy (azure_endpoint (this w)) = true ->
                   resolved_endpoint w = azure_endpoint (this w)).
  { unfold resolved_endpoint. now intros ->. }
  assert (Henv : truthy (azure_endpoint (this w)) = false ->
                 resolved_endpoint w
                 = os_environ w !! "AZURE_MISTRAL_ENDPOINT").
  { unfold resolved_endpoint, endpoint_resolvable in *. intros Hf.
    rewrite Hf in *. cbn in Hres. now apply py_or_None_truthy. }
  validator_cases w Hres; (split; [exact Hfield |]);
    (split; [exact Henv |]); (split; [exact Ht |]); intros r.
  - destruct (out_of_range (temperature (this w))); [discriminate |].
    destruct (out_of_range (top_p (this w))); [discriminate |].
    now intros [= <-].
  - discriminate.
  - discriminate.
Qed.

(** ** Range validation *)

Lemma float_0_in_range : ~ outside_unit_interval (Some float_0).
Proof. apply in_range_spec. reflexivity. Qed.

Lemma float_1_in_range : ~ outside_unit_interval (Some float_1).
Proof. apply in_range_spec. reflexivity. Qed.

Lemma absent_in_range : ~ outside_unit_interval None.
Proof. apply in_range_spec. reflexivity. Qed.

Lemma float_1_5_out_of_range : outside_unit_interval (Some float_1_5).
Proof. apply out_of_range_spec. reflexivity. Qed.

(** The outcome of the validator once the endpoint resolves and the
    constructors have not raised. *)
Lemma validate_environment_outcome (w : World) :
  endpoint_resolvable w = true ->
  construction_error w = None ->
  (validate_environment w).2
  = if out_of_range (temperature (this w))
    then Raise (ValueError "temperature must be in the range [0.0, 1.0]")
    else if out_of_range (top_p (this w))
         then Raise (ValueError "top_p must be in the range [0.0, 1.0]")
         else Return (this (validate_environment w).1).
Proof.
  intros Hres Hok. rewrite (validate_environment_resolved w Hres Hok). cbn.
  reflexivity.
Qed.

(** The outcome when a constructor raises: its exception, whatever the
    ranges are. *)
Lemma validate_environment_refused (w : World) (he : httpx.error) :
  endpoint_resolvable w = true ->
  construction_error w = Some he ->
  (validate_environment w).2 = Raise (HttpxError he).
Proof.
  intros Hres Hhe. validator_cases w Hres.
  - congruence.
  - congruence.
  - congruence.
Qed.

(** C5, amended. With a resolvable endpoint and client constructors that do
    not raise, the validator fails exactly when a present temperature or a
    present top_p lies outside the closed interval from 0.0 to 1.0; the
    bounds 0 and 1 and an absent value are inside. When a client
    constructor raises, its exception is the outcome, before any range is
    tested. *)
Theorem validate_environment_range_check (w : World) :
  endpoint_resolvable w = true ->
  (construction_error w = None ->
   ((exists e, (validate_environment w).2 = Raise e)
    <-> outside_unit_interval (temperature (this w))
        \/ outside_unit_interval (top_p (this w))))
  /\ (forall he, construction_error w = Some he ->
        (validate_environment w).2 = Raise (HttpxError he))
  /\ ~ outside_unit_interval (Some float_0)
  /\ ~ outside_unit_interval (Some float_1)
  /\ ~ outside_unit_interval None.
Proof.
  intros Hres.
  split; [| split;
            [intros he Hhe; now apply validate_environment_refused
            | auto using float_0_in_range, float_1_in_range,
                absent_in_range]].
  intros Hok. rewrite (validate_environment_outcome w Hres Hok).
  rewrite <- !out_of_range_spec.
  destruct (out_of_range (temperature (this w)));
    destruct (out_of_range (top_p (this w))); split;
    try (intros _; eexists; reflexivity);
    try (intros _; auto; fail).
  - intros [e He]. discriminate He.
  - intros [H | H]; discriminate H.
Qed.

(** ** Client handles *)

(** C6. Running the validator on an instance that already holds its
    synchronous and asynchronous client handles leaves both as they are
    and builds no new one; each handle is guarded on its own, an existing
    one is kept whether or not the other exists. *)
Theorem validate_environment_keeps_clients (w : World) :
  let w' := (validate_environment w).1 in
  (forall c, client (this w) = Some c -> client (this w') = Some c)
  /\ (forall a, async_client (this w) = Some a ->
                async_client (this w') = Some a)
  /\ (forall c a, client (this w) = Some c ->
                  async_client (this w) = Some a ->
                  httpx_objects w' = httpx_objects w).
Proof.
  destruct (endpoint_resolvable w) eqn:Hres.
  - validator_cases w Hres; (split; [| split]); intros;
      repeat match goal with
             | H : client _ = Some _ |- _ => rewrite H in *
             | H : async_client _ = Some _ |- _ => rewrite H in *
             end;
      cbn; rewrite ?app_nil_r; congruence.
  - rewrite (validate_environment_unresolved w Hres). cbn. auto.
Qed.

(** ** Failure and its effects *)

(** C9, amended. A configuration error is raised by the validator itself
    and no instance is returned. The missing-endpoint error is raised
    before anything is written or built. A temperature or top_p error is
    raised only after the resolved endpoint has been stored and every
    missing client handle has been built: those writes and objects remain
    on the instance the validator ran on. *)
Theorem validate_environment_failure_effects (w : World) (e : exn) :
  (validate_environment w).2 = Raise e ->
  e = ValueError "Must set AZURE_MISTRAL_ENDPOINT"
  \/ e = ValueError "temperature must be in the range [0.0, 1.0]"
  \/ e = ValueError "top_p must be in the range [0.0, 1.0]" ->
  let w' := (validate_environment w).1 in
  (endpoint_resolvable w = false
   /\ e = ValueError "Must set AZURE_MISTRAL_ENDPOINT"
   /\ w' = w)
  \/ (endpoint_resolvable w = true
      /\ (outside_unit_interval (temperature (this w))
          \/ outside_unit_interval (top_p (this w)))
      /\ e <> ValueError "Must set AZURE_MISTRAL_ENDPOINT"
      /\ os_environ w' = os_environ w
      /\ endpoint (this w') = resolved_endpoint w
      /\ is_Some (client (this w'))
      /\ is_Some (async_client (this w'))
      /\ length (httpx_objects w')
         = (length (httpx_objects w) + missing_clients (this w))%nat).
Proof.
  intros He Hnamed. cbn zeta. revert He.
  destruct (endpoint_resolvable w) eqn:Hres.
  - validator_cases w Hres.
    + intros He. right. split; [reflexivity |].
      rewrite <- !out_of_range_spec.
      split; [| split; [| repeat split; eauto]].
      * destruct (out_of_range (temperature (this w))); [now left |].
        destruct (out_of_range (top_p (this w))); [now right | discriminate].
      * destruct (out_of_range (temperature (this w)));
          [injection He as <-; discriminate |].
        destruct (out_of_range (top_p (this w)));
          [injection He as <-; discriminate | discriminate].
      * unfold missing_clients. rewrite !length_app.
        destruct (client (this w)), (async_client (this w)); cbn; lia.
    + intros [= <-]. destruct Hnamed as [H | [H | H]]; discriminate H.
    + intros [= <-]. destruct Hnamed as [H | [H | H]]; discriminate H.
  - rewrite (validate_environment_unresolved w Hres). cbn.
    intros [= <-]. left. auto.
Qed.

(** ** Missing credential *)

(** C10, amended. With a resolvable endpoint, no API key, client
    constructors that do not raise, and temperature and top_p each absent
    or inside the interval, the validator returns the instance without
    raising, both handles set. Whatever the ranges, a client handle the
    validator builds is constructed with the Authorization header
    [Bearer None]. An exception, if one is raised, is one of the two range
    errors or comes out of a client constructor: the missing credential
    itself never is a configuration error. *)
Theorem validate_environment_without_key (w : World) :
  endpoint_resolvable w = true ->
  mistral_api_key (this w) = None ->
  let w' := (validate_environment w).1 in
  (construction_error w = None ->
   ~ outside_unit_interval (temperature (this w)) ->
   ~ outside_unit_interval (top_p (this w)) ->
   (validate_environment w).2 = Return (this w')
   /\ is_Some (client (this w'))
   /\ is_Some (async_client (this w')))
  /\ (forall c, client (this w) = None -> client (this w') = Some c ->
        httpx.cls c = httpx.Client
        /\ httpx.headers c !! "Authorization" = Some "Bearer None")
  /\ (forall a, async_client (this w) = None ->
        async_client (this w') = Some a ->
        httpx.cls a = httpx.AsyncClient
        /\ httpx.headers a !! "Authorization" = Some "Bearer None")
  /\ (forall e, (validate_environment w).2 = Raise e ->
        e = ValueError "temperature must be in the range [0.0, 1.0]"
        \/ e = ValueError "top_p must be in the range [0.0, 1.0]"
        \/ exists he, construction_error w = Some he /\ e = HttpxError he).
Proof.
  intros Hres Hkey. cbn zeta.
  validator_cases w Hres; unfold built_object; rewrite ?Hkey;
    (split; [| split; [| split]]).
  - intros _ Ht Hp. apply in_range_spec in Ht, Hp. rewrite Ht, Hp.
    repeat split; eauto.
  - intros c -> [= <-]. cbn. split; [reflexivity |].
    apply client_headers_authorization.
  - intros a -> [= <-]. cbn. split; [reflexivity |].
    apply client_headers_authorization.
  - intros e.
    destruct (out_of_range (temperature (this w))); [intros [= <-]; now left |].
    destruct (out_of_range (top_p (this w)));
      [intros [= <-]; right; now left | discriminate].
  - congruence.
  - intros c Hc. congruence.
  - intros a Ha. congruence.
  - intros e [= <-]. right. right. eauto.
  - congruence.
  - intros c -> [= <-]. cbn. split; [reflexivity |].
    apply client_headers_authorization.
  - intros a Ha. congruence.
  - intros e [= <-]. right. right. eauto.
Qed.

(** ** Credential resolution *)

(** C4. With no explicit api_key, when AZURE_MISTRAL_API_KEY and
    MISTRAL_API_KEY are both set the resolved credential is the value of
    AZURE_MISTRAL_API_KEY; the value of MISTRAL_API_KEY is the credential
    only in an environment where AZURE_MISTRAL_API_KEY is unset. *)
Theorem api_key_priority (w : World) (a b : string) :
  os_environ w !! "AZURE_MISTRAL_API_KEY" = Some a ->
  os_environ w !! "MISTRAL_API_KEY" = Some b ->
  populate_mistral_api_key None w
  = (w, Return (Some {| get_secret_value := a |}))
  /\ (forall w0 : World,
        os_environ w0 !! "AZURE_MISTRAL_API_KEY" = None ->
        os_environ w0 !! "MISTRAL_API_KEY" = Some b ->
        populate_mistral_api_key None w0
        = (w0, Return (Some {| get_secret_value := b |}))).
Proof.
  intros Ha Hb.
  unfold populate_mistral_api_key, mistral_api_key_default_factory,
    secret_from_env.
  split.
  - cbn. now rewrite Ha.
  - intros w0 Ha0 Hb0. cbn. now rewrite Ha0, Hb0.
Qed.

Lemma api_key_priority_witness :
  let w := world_of [("AZURE_MISTRAL_API_KEY", "a"); ("MISTRAL_API_KEY", "b")]
             (populated None None None) in
  os_environ w !! "AZURE_MISTRAL_API_KEY" = Some "a"
  /\ os_environ w !! "MISTRAL_API_KEY" = Some "b"
  /\ populate_mistral_api_key None w
     = (w, Return (Some {| get_secret_value := "a" |})).
Proof.
  intros w.
  assert (Ha : os_environ w !! "AZURE_MISTRAL_API_KEY" = Some "a")
    by reflexivity.
  assert (Hb : os_environ w !! "MISTRAL_API_KEY" = Some "b")
    by reflexivity.
  split; [exact Ha |]. split; [exact Hb |].
  exact (proj1 (api_key_priority w "a" "b" Ha Hb)).
Defined.

(** ** Parameter dictionaries *)

Lemma lookup_filter_not_None (d : dict) (k : string) :
  filter (fun kv : string * pyval => is_not_None kv.2) d !! k
  = match d !! k with
    | Some PyNone => None
    | other => other
    end.
Proof.
  destruct (d !! k) as [v |] eqn:E.
  - destruct v;
      [apply map_lookup_filter_None; right; intros x Hx Hp;
       rewrite E in Hx; injection Hx as <-; now apply Hp
      | apply map_lookup_filter_Some; split; [exact E | discriminate] .. ].
  - apply map_lookup_filter_None. now left.
Qed.

Lemma of_optional_lookup {A : Type} (inj : A -> pyval) (o : option A) :
  (forall a, inj a <> PyNone) ->
  match Some (of_optional inj o) with
  | Some PyNone => None
  | other => other
  end = inj <$> o.
Proof.
  intros Hinj. destruct o as [a |]; cbn; [| reflexivity].
  specialize (Hinj a). now destruct (inj a).
Qed.

(** C7. [_default_params] returns exactly the mapping over model,
    temperature, max_tokens, top_p and random_seed restricted to the fields
    that are present: each present field under its key, no other key, no
    key bound to [None]; the world is left as it was. *)
Theorem default_params_exact (w : World) :
  exists d : dict,
    _default_params w = (w, Return d)
    /\ d !! "model" = PyStr <$> model (this w)
    /\ d !! "temperature" = PyFloat <$> temperature (this w)
    /\ d !! "max_tokens" = PyInt <$> max_tokens (this w)
    /\ d !! "top_p" = PyFloat <$> top_p (this w)
    /\ d !! "random_seed" = PyInt <$> random_seed (this w)
    /\ (forall k : string,
          k ∉ ["model"; "temperature"; "max_tokens"; "top_p"; "random_seed"] ->
          d !! k = None)
    /\ (forall k : string, d !! k <> Some PyNone).
Proof.
  unfold _default_params, mbind, M_bind, mret, M_ret, get_self.
  cbv beta iota zeta.
  eexists. split; [reflexivity |].
  split; [| split; [| split; [| split; [| split; [| split]]]]];
    try intros k; try intros Hk; rewrite lookup_filter_not_None in *.
  - rewrite !lookup_insert_ne, lookup_insert_eq by done.
    now apply of_optional_lookup.
  - rewrite !lookup_insert_ne, lookup_insert_eq by done.
    now apply of_optional_lookup.
  - rewrite !lookup_insert_ne, lookup_insert_eq by done.
    now apply of_optional_lookup.
  - rewrite !lookup_insert_ne, lookup_insert_eq by done.
    now apply of_optional_lookup.
  - rewrite lookup_insert_eq. now apply of_optional_lookup.
  - rewrite !lookup_insert_ne, lookup_empty by set_solver. reflexivity.
  - destruct (_ !! k) as [[] |]; discriminate.
Qed.

(** C1, as stated, fails: when the base mapping has its own azure_endpoint
    entry, that entry is the one returned. *)
Lemma identifying_params_base_wins_counterexample :
  ~ (forall (super_identifying_params : M dict) (w w' : World) (d : dict),
       _identifying_params super_identifying_params w = (w', Return d) ->
       d !! "azure_endpoint"
       = Some (of_optional PyStr (azure_endpoint (this w)))).
Proof.
  intros H.
  pose (base := mret (<["azure_endpoint" := PyStr "https://other.example/"]> ∅)
                : M dict).
  pose (w := world_of [] (populated (Some "https://x.example/") None None)).
  specialize (H base w w _ eq_refl).
  vm_compute in H. discriminate H.
Qed.

(** C1, amended. The identifying-parameters mapping always has the key
    azure_endpoint. Its value is the instance's azure_endpoint when the
    base mapping has no such key; when the base mapping has one, the base
    mapping's value takes precedence. Every other key is as in the base
    mapping. *)
Theorem identifying_params_azure_endpoint
    (super_identifying_params : M dict) (w w' : World) (inherited : dict) :
  super_identifying_params w = (w', Return inherited) ->
  exists d : dict,
    _identifying_params super_identifying_params w = (w', Return d)
    /\ is_Some (d !! "azure_endpoint")
    /\ (inherited !! "azure_endpoint" = None ->
        d !! "azure_endpoint"
        = Some (of_optional PyStr (azure_endpoint (this w))))
    /\ (forall v, inherited !! "azure_endpoint" = Some v ->
                  d !! "azure_endpoint" = Some v)
    /\ (forall k : string, k <> "azure_endpoint" -> d !! k = inherited !! k).
Proof.
  intros Hbase. eexists. split.
  - unfold _identifying_params, mbind, M_bind, get_self. cbn.
    rewrite Hbase. reflexivity.
  - unfold dict_update. repeat split.
    + destruct (inherited !! "azure_endpoint") as [v |] eqn:E.
      * exists v. now apply lookup_union_Some_l.
      * rewrite lookup_union_r by exact E. rewrite lookup_insert_eq. eauto.
    + intros E. rewrite lookup_union_r by exact E. apply lookup_insert_eq.
    + intros v E. now apply lookup_union_Some_l.
    + intros k Hk.
      destruct (inherited !! k) as [v |] eqn:E.
      * now apply lookup_union_Some_l.
      * rewrite lookup_union_r by exact E.
        rewrite lookup_insert_ne by done. apply lookup_empty.
Qed.

Lemma identifying_params_azure_endpoint_witness :
  let base : M dict := mret (<["model" := PyStr "mistral-small"]> ∅) in
  let w := world_of [] (populated (Some "https://x.example/") None None) in
  exists d : dict,
    _identifying_params base w = (w, Return d)
    /\ d !! "azure_endpoint" = Some (PyStr "https://x.example/")
    /\ d !! "model" = Some (PyStr "mistral-small").
Proof.
  intros base w.
  destruct (identifying_params_azure_endpoint base w w
              (<["model" := PyStr "mistral-small"]> ∅) eq_refl)
    as (d & Hd & _ & Hown & _ & Hother).
  exists d. split; [exact Hd |]. split.
  - apply Hown. reflexivity.
  - rewrite Hother by discriminate. reflexivity.
Defined.

(** C8. [_create_message_dicts] returns, for every list of messages and
    every optional stop list, exactly what the base implementation returns
    on the same inputs: the same pair, the same exception if it raises, the
    same world. *)
Theorem create_message_dicts_passthrough
    (BaseMessage : Type)
    (super_create_message_dicts :
       list BaseMessage -> option (list string) -> M (list dict * dict))
    (messages : list BaseMessage) (stop : option (list string)) (w : World) :
  _create_message_dicts BaseMessage super_create_message_dicts messages stop w
  = super_create_message_dicts messages stop w.
Proof.
  unfold _create_message_dicts, mbind, M_bind.
  destruct (super_create_message_dicts messages stop w)
    as [w' [[message_dicts params] | e]]; reflexivity.
Qed.

(** ** The remaining accessors *)

(** X11. [lc_attributes] merges in the other order than
    [_identifying_params]: the adapter's entry is written last, so the
    result binds azure_endpoint to the instance's value even when the base
    mapping has that key, and is the base mapping everywhere else. *)
Lemma lc_attributes_azure_endpoint
    (super_lc_attributes : M dict) (w w' : World) (attributes : dict) :
  super_lc_attributes w = (w', Return attributes) ->
  exists d : dict,
    lc_attributes super_lc_attributes w = (w', Return d)
    /\ d !! "azure_endpoint"
       = Some (of_optional PyStr (azure_endpoint (this w')))
    /\ (forall k : string, k <> "azure_endpoint" -> d !! k = attributes !! k).
Proof.
  intros Hbase. eexists. split.
  - unfold lc_attributes, mbind, M_bind, get_self. rewrite Hbase. reflexivity.
  - unfold dict_update. split.
    + apply lookup_union_Some_l, lookup_insert_eq.
    + intros k Hk. rewrite lookup_union_r; [reflexivity |].
      rewrite lookup_insert_ne by done. apply lookup_empty.
Qed.

Lemma lc_secrets_mistral_api_key (w : World) :
  exists m : gmap string string,
    lc_secrets w = (w, Return m)
    /\ m !! "mistral_api_key" = Some "AZURE_MISTRAL_API_KEY".
Proof. eexists. split; [reflexivity | apply lookup_insert_eq]. Qed.

(** With neither variable set and no explicit key the credential stays
    absent, the situation of the missing-credential property above. *)
Lemma populate_mistral_api_key_unset (w : World) :
  os_environ w !! "AZURE_MISTRAL_API_KEY" = None ->
  os_environ w !! "MISTRAL_API_KEY" = None ->
  populate_mistral_api_key None w = (w, Return None).
Proof.
  intros Ha Hb.
  unfold populate_mistral_api_key, mistral_api_key_default_factory,
    secret_from_env.
  cbn. now rewrite Ha, Hb.
Qed.

(** An explicit key is taken as given, whatever the environment holds. *)
Lemma populate_mistral_api_key_explicit
    (explicit : option SecretStr) (w : World) :
  populate_mistral_api_key (Some explicit) w = (w, Return explicit).
Proof. reflexivity. Qed.

(** * Further properties of the validator *)

Lemma truthy_false_iff (o : option string) :
  truthy o = false <-> o = None \/ o = Some "".
Proof.
  destruct o as [s |]; cbn.
  - rewrite negb_false_iff, String.eqb_eq. split.
    + intros ->. now right.
    + intros [H | [= ->]]; [discriminate | reflexivity].
  - split; [now left | reflexivity].
Qed.

(** A run that returns had a resolvable endpoint, constructors that did not
    raise, and both ranges in order. *)
Lemma validate_environment_return_inv (w : World) (r : AzureChatMistralAI) :
  (validate_environment w).2 = Return r ->
  endpoint_resolvable w = true
  /\ construction_error w = None
  /\ out_of_range (temperature (this w)) = false
  /\ out_of_range (top_p (this w)) = false.
Proof.
  destruct (endpoint_resolvable w) eqn:Hres.
  - validator_cases w Hres; try discriminate.
    destruct (out_of_range (temperature (this w))); [discriminate |].
    destruct (out_of_range (top_p (this w))); [discriminate |].
    auto.
  - rewrite (validate_environment_unresolved w Hres). discriminate.
Qed.

(** What the run leaves in the endpoint field. *)
Lemma validate_environment_endpoint (w : World) :
  endpoint (this (validate_environment w).1)
  = if endpoint_resolvable w then resolved_endpoint w else endpoint (this w).
Proof.
  destruct (endpoint_resolvable w) eqn:Hres.
  - validator_cases w Hres; reflexivity.
  - now rewrite (validate_environment_unresolved w Hres).
Qed.

Lemma validate_environment_missing_iff_unresolvable (w : World) :
  (validate_environment w).2 = Raise missing_endpoint_error
  <-> endpoint_resolvable w = false.
Proof.
  destruct (endpoint_resolvable w) eqn:Hres.
  - split; [| discriminate].
    validator_cases w Hres; try discriminate.
    destruct (out_of_range (temperature (this w))); [discriminate |].
    destruct (out_of_range (top_p (this w))); discriminate.
  - rewrite (validate_environment_unresolved w Hres). cbn.
    split; reflexivity.
Qed.

(** The fields and the environment a run does not touch. *)
Lemma validate_environment_untouched (w : World) :
  let w' := (validate_environment w).1 in
  os_environ w' = os_environ w
  /\ azure_endpoint (this w') = azure_endpoint (this w)
  /\ mistral_api_key (this w') = mistral_api_key (this w)
  /\ timeout (this w') = timeout (this w)
  /\ model (this w') = model (this w)
  /\ temperature (this w') = temperature (this w)
  /\ max_tokens (this w') = max_tokens (this w)
  /\ top_p (this w') = top_p (this w)
  /\ random_seed (this w') = random_seed (this w).
Proof.
  destruct (endpoint_resolvable w) eqn:Hres.
  - validator_cases w Hres; repeat split.
  - rewrite (validate_environment_unresolved w Hres). cbn. repeat split.
Qed.

(** X1. The validator is idempotent: run on the world a first run left, it
    changes nothing more and ends the same way, with the same instance or
    the same error. *)
Theorem validate_environment_idempotent (w : World) :
  validate_environment (validate_environment w).1 = validate_environment w.
Proof.
  destruct (endpoint_resolvable w) eqn:Hres.
  - destruct (construction_error_cases w)
      as [Hok | [(err & Herr & Hc & He) | (err & Herr & Hc & Ha & He)]].
    + rewrite (validate_environment_resolved w Hres Hok). cbn [fst].
      match goal with |- validate_environment ?x = _ => set (w1 := x) end.
      assert (Hres1 : endpoint_resolvable w1 = true) by exact Hres.
      assert (Hok1 : construction_error w1 = None) by reflexivity.
      rewrite (validate_environment_resolved w1 Hres1 Hok1).
      subst w1. cbn. rewrite !app_nil_r. reflexivity.
    + rewrite (validate_environment_client_refused w err Hres Hc He).
      cbn [fst].
      match goal with |- validate_environment ?x = _ => set (w1 := x) end.
      assert (Hres1 : endpoint_resolvable w1 = true) by exact Hres.
      assert (Hc1 : client (this w1) = None) by exact Hc.
      assert (He1 : construct_call w1 httpx.Client = Some err) by exact He.
      rewrite (validate_environment_client_refused w1 err Hres1 Hc1 He1).
      reflexivity.
    + rewrite (validate_environment_async_refused w err Hres Hc Ha He).
      cbn [fst].
      match goal with |- validate_environment ?x = _ => set (w1 := x) end.
      assert (Hres1 : endpoint_resolvable w1 = true) by exact Hres.
      assert (Hc1 : is_Some (client (this w1))
                    \/ construct_call w1 httpx.Client = None)
        by (left; cbn; eauto).
      assert (Ha1 : async_client (this w1) = None) by exact Ha.
      assert (He1 : construct_call w1 httpx.AsyncClient = Some err)
        by exact He.
      rewrite (validate_environment_async_refused w1 err Hres1 Hc1 Ha1 He1).
      subst w1. cbn. rewrite !app_nil_r. reflexivity.
  - rewrite (validate_environment_unresolved w Hres). cbn [fst].
    apply (validate_environment_unresolved w Hres).
Qed.

(** X2. The validator writes only the fields endpoint, client and
    async_client: the environment and every other field of the instance
    are after the run what they were before it, whether it returns or
    raises. *)
Theorem validate_environment_frame (w : World) :
  let w' := (validate_environment w).1 in
  os_environ w' = os_environ w
  /\ azure_endpoint (this w') = azure_endpoint (this w)
  /\ mistral_api_key (this w') = mistral_api_key (this w)
  /\ timeout (this w') = timeout (this w)
  /\ model (this w') = model (this w)
  /\ temperature (this w') = temperature (this w)
  /\ max_tokens (this w') = max_tokens (this w)
  /\ top_p (this w') = top_p (this w)
  /\ random_seed (this w') = random_seed (this w).
Proof. exact (validate_environment_untouched w). Qed.

(** X3. The missing-endpoint error is raised exactly when the field
    azure_endpoint is [None] or empty and the variable
    AZURE_MISTRAL_ENDPOINT is unset or empty: an empty string counts as
    absent in both places. *)
Theorem validate_environment_missing_endpoint_iff (w : World) :
  (validate_environment w).2 = Raise missing_endpoint_error
  <-> (azure_endpoint (this w) = None \/ azure_endpoint (this w) = Some "")
      /\ (os_environ w !! "AZURE_MISTRAL_ENDPOINT" = None
          \/ os_environ w !! "AZURE_MISTRAL_ENDPOINT" = Some "").
Proof.
  rewrite <- !truthy_false_iff, <- orb_false_iff.
  apply validate_environment_missing_iff_unresolvable.
Qed.

(** X4. The errors have a fixed order. A missing endpoint is reported
    whatever else is wrong. With a resolvable endpoint, an exception out of
    a client constructor is reported before any range is tested. When the
    constructors do not raise, an out-of-range temperature is reported
    before top_p is looked at, and the top_p error shows only when the
    temperature is absent or in range. *)
Theorem validate_environment_error_priority (w : World) :
  (endpoint_resolvable w = false ->
   (validate_environment w).2 = Raise missing_endpoint_error)
  /\ (endpoint_resolvable w = true ->
      forall he, construction_error w = Some he ->
      (validate_environment w).2 = Raise (HttpxError he))
  /\ (endpoint_resolvable w = true ->
      construction_error w = None ->
      outside_unit_interval (temperature (this w)) ->
      (validate_environment w).2 = Raise temperature_error)
  /\ (endpoint_resolvable w = true ->
      construction_error w = None ->
      ~ outside_unit_interval (temperature (this w)) ->
      outside_unit_interval (top_p (this w)) ->
      (validate_environment w).2 = Raise top_p_error).
Proof.
  split; [| split; [| split]].
  - intros Hres. now rewrite (validate_environment_unresolved w Hres).
  - intros Hres he Hhe. now apply validate_environment_refused.
  - intros Hres Hok Ht. apply out_of_range_spec in Ht.
    rewrite (validate_environment_outcome w Hres Hok), Ht. reflexivity.
  - intros Hres Hok Ht Hp. apply in_range_spec in Ht.
    apply out_of_range_spec in Hp.
    rewrite (validate_environment_outcome w Hres Hok), Ht, Hp. reflexivity.
Qed.

(** X5. On an instance without client handles, with a resolvable endpoint
    and constructors that do not raise, the validator builds two objects,
    the synchronous one first. Both are constructed with the endpoint it
    has just stored as base URL, with the same headers and with the
    instance's timeout, and they are exactly what is added to the objects
    constructed so far. This holds also when a range error follows. *)
Theorem validate_environment_builds_clients (w : World) :
  endpoint_resolvable w = true ->
  construction_error w = None ->
  client (this w) = None ->
  async_client (this w) = None ->
  let w' := (validate_environment w).1 in
  exists c a : httpx.object,
    client (this w') = Some c
    /\ async_client (this w') = Some a
    /\ httpx.cls c = httpx.Client
    /\ httpx.cls a = httpx.AsyncClient
    /\ httpx.base_url c = endpoint (this w')
    /\ httpx.base_url a = endpoint (this w')
    /\ httpx.headers a = httpx.headers c
    /\ httpx.timeout c = timeout (this w)
    /\ httpx.timeout a = timeout (this w)
    /\ (httpx.oid c < httpx.oid a)%nat
    /\ httpx_objects w' = (httpx_objects w ++ [c; a])%list.
Proof.
  intros Hres Hok Hc Ha.
  rewrite (validate_environment_resolved w Hres Hok). cbn.
  rewrite Hc, Ha. cbn.
  eexists. eexists. repeat split.
  - rewrite length_app. cbn. lia.
  - now rewrite <- app_assoc.
Qed.

(** X6. A client handle the validator builds is constructed with the
    headers Content-Type and Accept, both [application/json], and
    Authorization, which for a present key is [Bearer ] followed by the
    secret in clear. *)
Theorem validate_environment_client_headers (w : World) (secret : SecretStr) :
  endpoint_resolvable w = true ->
  mistral_api_key (this w) = Some secret ->
  let w' := (validate_environment w).1 in
  forall h : httpx.object,
    (client (this w) = None /\ client (this w') = Some h)
    \/ (async_client (this w) = None /\ async_client (this w') = Some h) ->
    httpx.headers h !! "Content-Type" = Some "application/json"
    /\ httpx.headers h !! "Accept" = Some "application/json"
    /\ httpx.headers h !! "Authorization"
       = Some ("Bearer " ++ get_secret_value secret).
Proof.
  intros Hres Hkey. cbn zeta.
  assert (Hhdr : forall h : httpx.object,
             httpx.headers h
             = client_headers (Some (get_secret_value secret)) ->
             httpx.headers h !! "Content-Type" = Some "application/json"
             /\ httpx.headers h !! "Accept" = Some "application/json"
             /\ httpx.headers h !! "Authorization"
                = Some ("Bearer " ++ get_secret_value secret)).
  { intros h ->. unfold client_headers.
    split; [| split].
    - now rewrite !lookup_insert_ne, lookup_insert_eq by done.
    - now rewrite lookup_insert_ne, lookup_insert_eq by done.
    - now rewrite lookup_insert_eq. }
  validator_cases w Hres; unfold built_object; rewrite ?Hkey;
    intros h [[Hc Hh] | [Ha Hh]];
    try rewrite Hc in Hh; try rewrite Ha in Hh; cbn in Hh;
    try congruence; injection Hh as <-; now apply Hhdr.
Qed.

(** X7. An instance the validator returns is fully initialised: it is the
    object the validator ran on, its endpoint is the resolved, non-empty
    one, both client handles exist, and its temperature and top_p are
    absent or inside the interval. *)
Theorem validate_environment_returns_initialized
    (w w' : World) (r : AzureChatMistralAI) :
  validate_environment w = (w', Return r) ->
  r = this w'
  /\ endpoint r = resolved_endpoint w
  /\ truthy (endpoint r) = true
  /\ is_Some (client r)
  /\ is_Some (async_client r)
  /\ ~ outside_unit_interval (temperature r)
  /\ ~ outside_unit_interval (top_p r).
Proof.
  intros Hrun.
  destruct (validate_environment_return_inv w r) as (Hres & Hok & Ht & Hp);
    [now rewrite Hrun |].
  pose proof (resolved_endpoint_truthy w) as Hurl. rewrite Hres in Hurl.
  rewrite (validate_environment_resolved w Hres Hok) in Hrun.
  cbn in Hrun. rewrite Ht, Hp in Hrun. injection Hrun as <- <-. cbn.
  rewrite <- !in_range_spec. repeat split; eauto.
Qed.

(** X8. The API key has no part in what the validator itself decides. With
    any other key, present or absent, the missing-endpoint error is raised
    in the same cases and the same endpoint is stored. The key reaches the
    client constructors only: when they raise neither with the one key nor
    with the other, the run ends the same way (the same error, or a return)
    and builds as many objects. *)
Theorem validate_environment_ignores_key (w : World) (key : option SecretStr) :
  let wk := with_this (with_mistral_api_key key (this w)) w in
  ((validate_environment wk).2 = Raise missing_endpoint_error
   <-> (validate_environment w).2 = Raise missing_endpoint_error)
  /\ endpoint (this (validate_environment wk).1)
     = endpoint (this (validate_environment w).1)
  /\ (construction_error wk = None ->
      construction_error w = None ->
      (forall e, (validate_environment wk).2 = Raise e
                 <-> (validate_environment w).2 = Raise e)
      /\ length (httpx_objects (validate_environment wk).1)
         = length (httpx_objects (validate_environment w).1)).
Proof.
  cbn zeta.
  set (wk := with_this (with_mistral_api_key key (this w)) w).
  split; [| split].
  - rewrite !validate_environment_missing_iff_unresolvable. reflexivity.
  - rewrite !validate_environment_endpoint. reflexivity.
  - intros Hokk Hok.
    assert (Hres : endpoint_resolvable wk = endpoint_resolvable w)
      by reflexivity.
    destruct (endpoint_resolvable w) eqn:E.
    + rewrite (validate_environment_resolved w E Hok).
      rewrite (validate_environment_resolved wk Hres Hokk). cbn.
      split.
      * intros e.
        destruct (out_of_range (temperature (this w))); [reflexivity |].
        destruct (out_of_range (top_p (this w))); [reflexivity |].
        split; discriminate.
      * rewrite !length_app.
        destruct (client (this w)), (async_client (this w)); reflexivity.
    + rewrite (validate_environment_unresolved w E).
      rewrite (validate_environment_unresolved wk Hres). cbn.
      split; [reflexivity | reflexivity].
Qed.


(** X10. Validation does not change what [_default_params] returns, and
    after a successful validation the temperature and top_p entries of that
    mapping, when present, are floats inside the interval from 0.0 to
    1.0. *)
Theorem default_params_after_validation
    (w w' : World) (r : AzureChatMistralAI) :
  validate_environment w = (w', Return r) ->
  exists d : dict,
    _default_params w' = (w', Return d)
    /\ (_default_params w).2 = Return d
    /\ (forall k v, (k = "temperature" \/ k = "top_p") ->
          d !! k = Some v ->
          exists f, v = PyFloat f
                    /\ PyFloat.in_unit_interval (PyFloat.repr f)).
Proof.
  intros Hrun.
  destruct (validate_environment_return_inv w r) as (Hres & Hok & Ht & Hp);
    [now rewrite Hrun |].
  pose proof (validate_environment_untouched w) as Hframe.
  rewrite Hrun in Hframe. cbn in Hframe.
  destruct Hframe as (_ & _ & _ & _ & Hmo & Hte & Hmt & Htp & Hrs).
  unfold _default_params, mbind, M_bind, mret, M_ret, get_self.
  cbv beta iota zeta. cbn [snd].
  rewrite Hmo, Hte, Hmt, Htp, Hrs.
  eexists. split; [reflexivity |]. split; [reflexivity |].
  intros k v Hk. rewrite lookup_filter_not_None.
  destruct Hk as [-> | ->].
  - rewrite !lookup_insert_ne, lookup_insert_eq by done.
    destruct (temperature (this w)) as [f |] eqn:Ef; cbn; [| discriminate].
    intros [= <-]. exists f. split; [reflexivity |].
    apply between_0_and_1_spec. cbn in Ht. now apply negb_false_iff in Ht.
  - rewrite !lookup_insert_ne, lookup_insert_eq by done.
    destruct (top_p (this w)) as [f |] eqn:Ef; cbn; [| discriminate].
    intros [= <-]. exists f. split; [reflexivity |].
    apply between_0_and_1_spec. cbn in Hp. now apply negb_false_iff in Hp.
Qed.

Lemma lc_attributes_azure_endpoint_witness :
  let base : M dict :=
    mret (<["azure_endpoint" := PyStr "https://other.example/"]> ∅) in
  let w := world_of [] (populated (Some "https://x.example/") None None) in
  exists d : dict,
    lc_attributes base w = (w, Return d)
    /\ d !! "azure_endpoint" = Some (PyStr "https://x.example/").
Proof.
  intros base w.
  destruct (lc_attributes_azure_endpoint base w w
              (<["azure_endpoint" := PyStr "https://other.example/"]> ∅)
              eq_refl)
    as (d & Hd & Hown & _).
  exists d. split; [exact Hd | exact Hown].
Defined.

(** X12. The validator only ever adds to the objects constructed so far:
    none when the endpoint cannot be resolved, otherwise at most one for
    each handle that was missing, and exactly one for each when the
    constructors do not raise. Every object it adds is held by the instance
    afterwards, and the objects of one run have different identities. *)
Theorem validate_environment_allocations (w : World) :
  let w' := (validate_environment w).1 in
  exists built : list httpx.object,
    httpx_objects w' = (httpx_objects w ++ built)%list
    /\ (length built
        <= if endpoint_resolvable w then missing_clients (this w) else 0)%nat
    /\ (endpoint_resolvable w = true -> construction_error w = None ->
        length built = missing_clients (this w))
    /\ (forall o, o ∈ built ->
          client (this w') = Some o \/ async_client (this w') = Some o)
    /\ NoDup (httpx.oid <$> built).
Proof.
  destruct (endpoint_resolvable w) eqn:Hres.
  - unfold missing_clients. validator_cases w Hres.
    + destruct (client (this w)) as [c |], (async_client (this w)) as [a |];
        cbn; rewrite <- ?app_assoc; cbn;
        eexists; (split; [reflexivity |]); cbn;
        (split; [lia |]); (split; [reflexivity |]);
        (split; [intros o Ho; set_unfold in Ho; intuition subst; auto |]);
        rewrite ?length_app; cbn;
        repeat constructor; set_unfold; intuition lia.
    + exists []. rewrite app_nil_r. cbn.
      split; [reflexivity |]. split; [lia |].
      split; [congruence |]. split; [set_solver | constructor].
    + destruct (client (this w)) as [c |]; cbn.
      * exists []. split; [reflexivity |]. cbn. split; [lia |].
        split; [congruence |]. split; [set_solver | constructor].
      * eexists [_]. split; [reflexivity |]. cbn. split; [lia |].
        split; [congruence |].
        split; [intros o Ho; set_unfold in Ho;
                destruct Ho as [-> | []]; now left |].
        apply NoDup_singleton.
  - rewrite (validate_environment_unresolved w Hres). cbn.
    exists []. rewrite app_nil_r. cbn.
    split; [reflexivity |]. split; [lia |].
    split; [discriminate |]. split; [set_solver | constructor].
Qed.

(** X13. A temperature or top_p that is NaN or infinite never passes: the
    validator then returns no instance. With a resolvable endpoint and
    constructors that do not raise, such a temperature raises the
    temperature error. *)
Theorem validate_environment_rejects_nan_inf (w : World) (f : PyFloat.float) :
  PyFloat.value (PyFloat.repr f) = None ->
  temperature (this w) = Some f \/ top_p (this w) = Some f ->
  (exists e, (validate_environment w).2 = Raise e)
  /\ (endpoint_resolvable w = true ->
      construction_error w = None ->
      temperature (this w) = Some f ->
      (validate_environment w).2 = Raise temperature_error).
Proof.
  intros Hval Hf.
  assert (Hout : out_of_range (Some f) = true).
  { apply out_of_range_spec. exists f. split; [reflexivity |].
    unfold PyFloat.in_unit_interval. rewrite Hval. exact id. }
  split.
  - destruct (validate_environment w).2 as [r |] eqn:Hrun; [| eauto].
    destruct (validate_environment_return_inv w r Hrun)
      as (_ & _ & Ht & Hp).
    destruct Hf as [Hf | Hf]; rewrite Hf in *; congruence.
  - intros Hres Hok Ht.
    rewrite (validate_environment_outcome w Hres Hok), Ht, Hout.
    reflexivity.
Qed.

(** X14. A non-empty explicit azure_endpoint shadows the environment. It is
    what the validator stores, whatever the environment holds, and the
    validator does not read the environment itself: under two environments
    in which the client constructors behave alike, it runs the same way, to
    the same instance, the same objects and the same outcome. *)
Theorem validate_environment_explicit_endpoint_shadows_environ
    (w : World) (environ : gmap string string) :
  truthy (azure_endpoint (this w)) = true ->
  let w2 := with_environ environ w in
  endpoint (this (validate_environment w2).1) = azure_endpoint (this w)
  /\ ((forall c u h t,
         construct c u h t environ = construct c u h t (os_environ w)) ->
      this (validate_environment w2).1 = this (validate_environment w).1
      /\ httpx_objects (validate_environment w2).1
         = httpx_objects (validate_environment w).1
      /\ (validate_environment w2).2 = (validate_environment w).2).
Proof.
  intros Hazure. cbn zeta.
  set (w2 := with_environ environ w).
  assert (Hres : endpoint_resolvable w = true)
    by (unfold endpoint_resolvable; now rewrite Hazure).
  assert (Hres2 : endpoint_resolvable w2 = true)
    by (unfold endpoint_resolvable; cbn; now rewrite Hazure).
  assert (Hurl : resolved_endpoint w = azure_endpoint (this w))
    by (unfold resolved_endpoint; now rewrite Hazure).
  assert (Hurl2 : resolved_endpoint w2 = azure_endpoint (this w))
    by (unfold resolved_endpoint; cbn; now rewrite Hazure).
  split.
  - rewrite validate_environment_endpoint, Hres2. exact Hurl2.
  - intros Halike.
    assert (Hcall : forall c, construct_call w2 c = construct_call w c).
    { intros c. unfold construct_call. rewrite Hurl, Hurl2. apply Halike. }
    assert (Hobj : forall c n, built_object w2 c n = built_object w c n).
    { intros c n. unfold built_object. now rewrite Hurl, Hurl2. }
    destruct (construction_error_cases w)
      as [Hok | [(err & Herr & Hc & He) | (err & Herr & Hc & Ha & He)]].
    + assert (Hok2 : construction_error w2 = None).
      { unfold construction_error in *. now rewrite !Hcall. }
      rewrite (validate_environment_resolved w Hres Hok).
      rewrite (validate_environment_resolved w2 Hres2 Hok2).
      rewrite !Hobj, Hurl, Hurl2. cbn. repeat split.
    + rewrite <- Hcall in He.
      rewrite (validate_environment_client_refused w err Hres Hc
                 ltac:(now rewrite <- Hcall)).
      rewrite (validate_environment_client_refused w2 err Hres2 Hc He).
      rewrite Hurl, Hurl2. cbn. repeat split.
    + rewrite <- Hcall in He.
      assert (Hc2 : is_Some (client (this w2))
                    \/ construct_call w2 httpx.Client = None)
        by (destruct Hc as [Hc | Hc]; [now left | right; now rewrite Hcall]).
      rewrite (validate_environment_async_refused w err Hres Hc Ha
                 ltac:(now rewrite <- Hcall)).
      rewrite (validate_environment_async_refused w2 err Hres2 Hc2 Ha He).
      rewrite !Hobj, Hurl, Hurl2. cbn. repeat split.
Qed.

(** X15. The validator stores what it resolves in endpoint, never in
    azure_endpoint. When the endpoint came from the environment because the
    field was [None] or empty, [_identifying_params] therefore still
    reports that [None] or empty value under azure_endpoint (the base
    mapping having no such key), not the endpoint in use. *)
Theorem identifying_params_after_environ_resolution
    (super_identifying_params : M dict) (w w'' : World) (inherited : dict) :
  truthy (azure_endpoint (this w)) = false ->
  endpoint_resolvable w = true ->
  let w' := (validate_environment w).1 in
  super_identifying_params w' = (w'', Return inherited) ->
  inherited !! "azure_endpoint" = None ->
  exists d : dict,
    _identifying_params super_identifying_params w' = (w'', Return d)
    /\ d !! "azure_endpoint"
       = Some (of_optional PyStr (azure_endpoint (this w)))
    /\ endpoint (this w') = os_environ w !! "AZURE_MISTRAL_ENDPOINT"
    /\ azure_endpoint (this w') <> endpoint (this w').
Proof.
  intros Hazure Hres. cbn zeta.
  assert (Henv : truthy (os_environ w !! "AZURE_MISTRAL_ENDPOINT") = true).
  { unfold endpoint_resolvable in Hres. now rewrite Hazure in Hres. }
  assert (Hurl : resolved_endpoint w = os_environ w !! "AZURE_MISTRAL_ENDPOINT").
  { unfold resolved_endpoint. rewrite Hazure. now apply py_or_None_truthy. }
  pose proof (validate_environment_endpoint w) as Hep.
  rewrite Hres, Hurl in Hep.
  destruct (validate_environment_untouched w) as (_ & Haz & _).
  intros Hbase Hnone. eexists. split.
  - unfold _identifying_params, mbind, M_bind, get_self. cbn.
    rewrite Hbase. reflexivity.
  - rewrite Haz, Hep. split; [| split; [reflexivity |]].
    + unfold dict_update. rewrite lookup_union_r by exact Hnone.
      apply lookup_insert_eq.
    + intros Heq. rewrite Heq, Henv in Hazure. discriminate.
Qed.

(** X16. [_identifying_params] and [lc_attributes] merge the same entry
    into a base mapping in opposite orders. Over one base mapping they
    return the same dictionary exactly when that mapping has no
    azure_endpoint key or already binds it to the instance's value;
    otherwise they differ, in that one entry. *)
Theorem identifying_params_vs_lc_attributes
    (super : M dict) (w : World) (m : dict) :
  super w = (w, Return m) ->
  exists d1 d2 : dict,
    _identifying_params super w = (w, Return d1)
    /\ lc_attributes super w = (w, Return d2)
    /\ (forall k : string, k <> "azure_endpoint" -> d1 !! k = d2 !! k)
    /\ (d1 = d2
        <-> m !! "azure_endpoint" = None
            \/ m !! "azure_endpoint"
               = Some (of_optional PyStr (azure_endpoint (this w)))).
Proof.
  intros Hbase. eexists. eexists.
  split; [unfold _identifying_params, mbind, M_bind, get_self; cbn;
          rewrite Hbase; reflexivity |].
  split; [unfold lc_attributes, mbind, M_bind, get_self;
          rewrite Hbase; reflexivity |].
  unfold dict_update.
  set (own := of_optional PyStr (azure_endpoint (this w))).
  assert (Hother : forall k : string, k <> "azure_endpoint" ->
            (m ∪ <["azure_endpoint" := own]> ∅) !! k
            = ((<["azure_endpoint" := own]> ∅ : dict) ∪ m) !! k).
  { intros k Hk.
    rewrite (lookup_union_r (<["azure_endpoint" := own]> ∅))
      by (rewrite lookup_insert_ne by done; apply lookup_empty).
    destruct (m !! k) as [v |] eqn:E.
    - now apply lookup_union_Some_l.
    - rewrite lookup_union_r by exact E.
      rewrite lookup_insert_ne by done. apply lookup_empty. }
  assert (Hright : ((<["azure_endpoint" := own]> ∅ : dict) ∪ m)
                     !! "azure_endpoint" = Some own)
    by apply lookup_union_Some_l, lookup_insert_eq.
  split; [exact Hother |]. split.
  - intros Heq.
    destruct (m !! "azure_endpoint") as [v |] eqn:E; [right | now left].
    rewrite <- Hright, <- Heq. symmetry. now apply lookup_union_Some_l.
  - intros Hm. apply map_eq. intros k.
    destruct (decide (k = "azure_endpoint")) as [-> | Hk];
      [| now apply Hother].
    rewrite Hright. destruct Hm as [Hm | Hm].
    + rewrite lookup_union_r by exact Hm. apply lookup_insert_eq.
    + now apply lookup_union_Some_l.
Qed.

Lemma identifying_params_vs_lc_attributes_witness :
  let base : M dict :=
    mret (<["azure_endpoint" := PyStr "https://other.example/"]> ∅) in
  let w := world_of [] (populated (Some "https://x.example/") None None) in
  exists d1 d2 : dict,
    _identifying_params base w = (w, Return d1)
    /\ lc_attributes base w = (w, Return d2)
    /\ d1 <> d2.
Proof.
  intros base w.
  destruct (identifying_params_vs_lc_attributes base w
              (<["azure_endpoint" := PyStr "https://other.example/"]> ∅)
              eq_refl)
    as (d1 & d2 & H1 & H2 & _ & Hiff).
  exists d1, d2. split; [exact H1 |]. split; [exact H2 |].
  intros Heq. apply Hiff in Heq. destruct Heq as [Heq | Heq].
  - vm_compute in Heq. discriminate Heq.
  - vm_compute in Heq. discriminate Heq.
Defined.

End Validator.

(** * Examples *)

(** The properties above at concrete inputs, run with the constructor
    [ascii_headers_only]. *)

Lemma validate_environment_missing_endpoint_witness :
  let w := world_of [("MISTRAL_API_KEY", "b")] (populated None None None) in
  azure_endpoint (this w) = None
  /\ os_environ w !! "AZURE_MISTRAL_ENDPOINT" = None
  /\ exists msg : string,
       validate_environment ascii_headers_only w = (w, Raise (ValueError msg))
       /\ contains "AZURE_MISTRAL_ENDPOINT" msg = true.
Proof.
  intros w. split; [reflexivity |]. split; [reflexivity |].
  apply validate_environment_missing_endpoint; reflexivity.
Defined.

(** C3, as stated, fails: an explicit endpoint that is present but empty is
    passed over, and the variable's value is stored instead. *)
Lemma validate_environment_empty_endpoint_counterexample :
  ~ (forall (w : World) (r : AzureChatMistralAI),
       (validate_environment ascii_headers_only w).2 = Return r ->
       endpoint r
       = match azure_endpoint (this w) with
         | Some explicit => Some explicit
         | None => os_environ w !! "AZURE_MISTRAL_ENDPOINT"
         end).
Proof.
  intros H.
  pose (w := world_of [("AZURE_MISTRAL_ENDPOINT", "https://x.example/")]
               (populated (Some "") None None)).
  specialize (H w (this (validate_environment ascii_headers_only w).1)).
  assert (Hret : (validate_environment ascii_headers_only w).2
                 = Return (this (validate_environment ascii_headers_only w).1))
    by (vm_compute; reflexivity).
  specialize (H Hret). vm_compute in H. discriminate H.
Qed.

Lemma validate_environment_stores_endpoint_witness :
  let w := world_of [("AZURE_MISTRAL_ENDPOINT", "https://x.example/")]
             (populated None None (Some float_0_5)) in
  let w' := (validate_environment ascii_headers_only w).1 in
  endpoint_resolvable w = true
  /\ (validate_environment ascii_headers_only w).2 = Return (this w')
  /\ endpoint (this w') = Some "https://x.example/".
Proof.
  intros w w'.
  assert (Hres : endpoint_resolvable w = true) by reflexivity.
  destruct (validate_environment_stores_endpoint ascii_headers_only w Hres)
    as (_ & He & _ & _).
  split; [exact Hres |]. split; [vm_compute; reflexivity |].
  subst w'. rewrite He; reflexivity.
Defined.

(** C5, as stated, fails: with a resolvable endpoint and both ranges in
    order the validator still raises when a client constructor does, here
    on an API key that is not ASCII. *)
Lemma validate_environment_range_check_counterexample :
  ~ (forall w : World,
       endpoint_resolvable w = true ->
       ((exists e, (validate_environment ascii_headers_only w).2 = Raise e)
        <-> outside_unit_interval (temperature (this w))
            \/ outside_unit_interval (top_p (this w)))).
Proof.
  intros H.
  pose (w := world_of [] (populated (Some "https://x.example/")
                            (Some key_e_acute) None)).
  destruct (H w eq_refl) as [Hfail _].
  destruct Hfail as [Ht | Hp].
  - eexists. vm_compute. reflexivity.
  - exact (absent_in_range Ht).
  - exact (float_1_in_range Hp).
Qed.

Lemma validate_environment_range_check_witness :
  let w := world_of [] (populated (Some "https://x.example/") None
                          (Some float_1_5)) in
  endpoint_resolvable w = true
  /\ construction_error ascii_headers_only w = None
  /\ exists e, (validate_environment ascii_headers_only w).2 = Raise e.
Proof.
  intros w.
  assert (Hres : endpoint_resolvable w = true) by reflexivity.
  assert (Hok : construction_error ascii_headers_only w = None)
    by (vm_compute; reflexivity).
  split; [exact Hres |]. split; [exact Hok |].
  apply (proj2 (proj1 (validate_environment_range_check
                         ascii_headers_only w Hres) Hok)).
  left. exact float_1_5_out_of_range.
Defined.

Lemma validate_environment_keeps_clients_witness :
  let w := world_of [("AZURE_MISTRAL_ENDPOINT", "https://x.example/")]
             (populated None None (Some float_0_5)) in
  let w1 := (validate_environment ascii_headers_only w).1 in
  let w2 := (validate_environment ascii_headers_only w1).1 in
  is_Some (client (this w1)) /\ is_Some (async_client (this w1))
  /\ client (this w2) = client (this w1)
  /\ async_client (this w2) = async_client (this w1)
  /\ httpx_objects w2 = httpx_objects w1.
Proof.
  intros w w1 w2.
  assert (Hc : exists c, client (this w1) = Some c)
    by (eexists; vm_compute; reflexivity).
  assert (Ha : exists a, async_client (this w1) = Some a)
    by (eexists; vm_compute; reflexivity).
  destruct Hc as [c Hc], Ha as [a Ha].
  destruct (validate_environment_keeps_clients ascii_headers_only w1)
    as (Kc & Ka & Ko).
  split; [rewrite Hc; eauto |]. split; [rewrite Ha; eauto |].
  split; [rewrite Hc; exact (Kc c Hc) |].
  split; [rewrite Ha; exact (Ka a Ha) |].
  exact (Ko c a Hc Ha).
Defined.

(** C9, as stated, fails: a range error is raised after the endpoint has
    been stored and both client objects have been built, so the failed
    run is not without effect. *)
Lemma validate_environment_not_atomic_counterexample :
  ~ (forall (w : World) (e : exn),
       (validate_environment ascii_headers_only w).2 = Raise e ->
       (validate_environment ascii_headers_only w).1 = w).
Proof.
  intros H.
  pose (w := world_of [] (populated (Some "https://x.example/") None
                            (Some float_1_5))).
  specialize (H w (ValueError "temperature must be in the range [0.0, 1.0]")).
  assert (Hraise : (validate_environment ascii_headers_only w).2
                   = Raise (ValueError
                              "temperature must be in the range [0.0, 1.0]"))
    by (vm_compute; reflexivity).
  specialize (H Hraise).
  apply (f_equal (fun x => length (httpx_objects x))) in H.
  vm_compute in H. discriminate H.
Qed.

Lemma validate_environment_failure_effects_witness :
  let w := world_of [] (populated (Some "https://x.example/") None
                          (Some float_1_5)) in
  let e := ValueError "temperature must be in the range [0.0, 1.0]" in
  (validate_environment ascii_headers_only w).2 = Raise e
  /\ length (httpx_objects (validate_environment ascii_headers_only w).1)
     = 2%nat.
Proof.
  intros w e.
  assert (He : (validate_environment ascii_headers_only w).2 = Raise e)
    by (vm_compute; reflexivity).
  split; [exact He |].
  destruct (validate_environment_failure_effects ascii_headers_only w e He
              (or_intror (or_introl eq_refl)))
    as [(Hres & _) | (_ & _ & _ & _ & _ & _ & _ & Hlen)].
  - discriminate Hres.
  - rewrite Hlen. reflexivity.
Defined.

(** C10, as stated, fails: with a resolvable endpoint and no API key the
    validator still raises when the temperature is out of range. *)
Lemma validate_environment_no_key_counterexample :
  ~ (forall w : World,
       endpoint_resolvable w = true ->
       mistral_api_key (this w) = None ->
       exists r, (validate_environment ascii_headers_only w).2 = Return r).
Proof.
  intros H.
  destruct (H (world_of [] (populated (Some "https://x.example/") None
                              (Some float_1_5)))
              eq_refl eq_refl) as [r Hr].
  vm_compute in Hr. discriminate Hr.
Qed.

Lemma validate_environment_without_key_witness :
  let w := world_of [("AZURE_MISTRAL_ENDPOINT", "https://x.example/")]
             (populated None None None) in
  let w' := (validate_environment ascii_headers_only w).1 in
  endpoint_resolvable w = true
  /\ mistral_api_key (this w) = None
  /\ construction_error ascii_headers_only w = None
  /\ (validate_environment ascii_headers_only w).2 = Return (this w')
  /\ exists c, client (this w') = Some c
               /\ httpx.headers c !! "Authorization" = Some "Bearer None".
Proof.
  intros w w'.
  assert (Hres : endpoint_resolvable w = true) by reflexivity.
  assert (Hkey : mistral_api_key (this w) = None) by reflexivity.
  assert (Hok : construction_error ascii_headers_only w = None)
    by (vm_compute; reflexivity).
  destruct (validate_environment_without_key ascii_headers_only w Hres Hkey)
    as (Hret & Hc & _ & _).
  destruct (Hret Hok absent_in_range float_1_in_range)
    as (Hrun & [c Hclient] & _).
  split; [exact Hres |]. split; [exact Hkey |]. split; [exact Hok |].
  split; [exact Hrun |].
  exists c. split; [exact Hclient |].
  exact (proj2 (Hc c eq_refl Hclient)).
Defined.

Lemma validate_environment_error_priority_witness :
  let self :=
    {| azure_endpoint := Some "https://x.example/";
       mistral_api_key := None;
       endpoint := None;
       client := None;
       async_client := None;
       timeout := 120;
       model := Some "mistral-small";
       temperature := Some float_1_5;
       max_tokens := None;
       top_p := Some float_1_5;
       random_seed := None |} in
  let w := world_of [] self in
  let wk := with_this (with_mistral_api_key (Some key_e_acute) self) w in
  endpoint_resolvable w = true
  /\ construction_error ascii_headers_only w = None
  /\ outside_unit_interval (temperature (this w))
  /\ outside_unit_interval (top_p (this w))
  /\ (validate_environment ascii_headers_only w).2 = Raise temperature_error
  /\ exists he, (validate_environment ascii_headers_only wk).2
                = Raise (HttpxError he).
Proof.
  intros self w wk.
  assert (Hres : endpoint_resolvable w = true) by reflexivity.
  assert (Hok : construction_error ascii_headers_only w = None)
    by (vm_compute; reflexivity).
  destruct (validate_environment_error_priority ascii_headers_only w)
    as (_ & _ & Htemp & _).
  destruct (validate_environment_error_priority ascii_headers_only wk)
    as (_ & Hrefused & _ & _).
  split; [exact Hres |]. split; [exact Hok |].
  split; [exact float_1_5_out_of_range |].
  split; [exact float_1_5_out_of_range |].
  split; [exact (Htemp Hres Hok float_1_5_out_of_range) |].
  eexists. apply (Hrefused eq_refl). vm_compute. reflexivity.
Defined.

Lemma validate_environment_builds_clients_witness :
  let w := world_of [] (populated (Some "https://x.example/") None
                          (Some float_1_5)) in
  let w' := (validate_environment ascii_headers_only w).1 in
  construction_error ascii_headers_only w = None
  /\ exists c a : httpx.object,
       client (this w') = Some c
       /\ async_client (this w') = Some a
       /\ httpx.base_url c = Some "https://x.example/"
       /\ httpx.base_url a = Some "https://x.example/"
       /\ httpx_objects w' = [c; a].
Proof.
  intros w w'.
  assert (Hok : construction_error ascii_headers_only w = None)
    by (vm_compute; reflexivity).
  split; [exact Hok |].
  destruct (validate_environment_builds_clients ascii_headers_only w
              eq_refl Hok eq_refl eq_refl)
    as (c & a & Hc & Ha & _ & _ & Hbc & Hba & _ & _ & _ & _ & Hlog).
  exists c, a.
  split; [exact Hc |]. split; [exact Ha |].
  split; [rewrite Hbc; vm_compute; reflexivity |].
  split; [rewrite Hba; vm_compute; reflexivity |].
  exact Hlog.
Defined.

Lemma validate_environment_client_headers_witness :
  let secret := {| get_secret_value := "s3cr3t" |} in
  let w := world_of [("AZURE_MISTRAL_ENDPOINT", "https://x.example/")]
             (populated None (Some secret) None) in
  exists c : httpx.object,
    client (this (validate_environment ascii_headers_only w).1) = Some c
    /\ httpx.headers c !! "Authorization" = Some "Bearer s3cr3t".
Proof.
  intros secret w.
  assert (Hc : exists c,
             client (this (validate_environment ascii_headers_only w).1)
             = Some c)
    by (eexists; vm_compute; reflexivity).
  destruct Hc as [c Hc]. exists c. split; [exact Hc |].
  destruct (validate_environment_client_headers ascii_headers_only w secret
              eq_refl eq_refl c (or_introl (conj eq_refl Hc)))
    as (_ & _ & Hauth).
  exact Hauth.
Defined.

Lemma validate_environment_returns_initialized_witness :
  let w := world_of [("AZURE_MISTRAL_ENDPOINT", "https://x.example/")]
             (populated None None (Some float_0_5)) in
  let w' := (validate_environment ascii_headers_only w).1 in
  validate_environment ascii_headers_only w = (w', Return (this w'))
  /\ endpoint (this w') = Some "https://x.example/"
  /\ is_Some (client (this w')).
Proof.
  intros w w'.
  assert (Hrun : validate_environment ascii_headers_only w
                 = (w', Return (this w')))
    by (vm_compute; reflexivity).
  destruct (validate_environment_returns_initialized ascii_headers_only
              w w' (this w') Hrun)
    as (_ & Hurl & _ & Hc & _).
  split; [exact Hrun |]. split; [rewrite Hurl; reflexivity | exact Hc].
Defined.


Lemma default_params_after_validation_witness :
  let w := world_of [("AZURE_MISTRAL_ENDPOINT", "https://x.example/")]
             (populated None None (Some float_0_5)) in
  let w' := (validate_environment ascii_headers_only w).1 in
  validate_environment ascii_headers_only w = (w', Return (this w'))
  /\ exists d : dict,
       _default_params w' = (w', Return d)
       /\ (_default_params w).2 = Return d.
Proof.
  intros w w'.
  assert (Hrun : validate_environment ascii_headers_only w
                 = (w', Return (this w')))
    by (vm_compute; reflexivity).
  split; [exact Hrun |].
  destruct (default_params_after_validation ascii_headers_only
              w w' (this w') Hrun)
    as (d & Hd & Hsame & _).
  exists d. split; assumption.
Defined.

Lemma validate_environment_rejects_nan_inf_witness :
  let w := world_of [] (populated (Some "https://x.example/") None
                          (Some float_nan)) in
  PyFloat.value (PyFloat.repr float_nan) = None
  /\ temperature (this w) = Some float_nan
  /\ (validate_environment ascii_headers_only w).2 = Raise temperature_error.
Proof.
  intros w. split; [reflexivity |]. split; [reflexivity |].
  apply (proj2 (validate_environment_rejects_nan_inf ascii_headers_only
                  w float_nan eq_refl (or_introl eq_refl))).
  - reflexivity.
  - vm_compute. reflexivity.
  - reflexivity.
Defined.

Lemma validate_environment_explicit_endpoint_shadows_environ_witness :
  let w := world_of [] (populated (Some "https://x.example/") None None) in
  let environ : gmap string string :=
    <["AZURE_MISTRAL_ENDPOINT" := "https://env.example/"]> ∅ in
  let w2 := with_environ environ w in
  truthy (azure_endpoint (this w)) = true
  /\ endpoint (this (validate_environment ascii_headers_only w2).1)
     = Some "https://x.example/"
  /\ (validate_environment ascii_headers_only w2).2
     = (validate_environment ascii_headers_only w).2.
Proof.
  intros w environ w2. split; [reflexivity |].
  destruct (validate_environment_explicit_endpoint_shadows_environ
              ascii_headers_only w environ eq_refl)
    as (Hurl & Hsame).
  split; [exact Hurl |].
  destruct (Hsame (fun _ _ _ _ => eq_refl)) as (_ & _ & Hout).
  exact Hout.
Defined.

Lemma identifying_params_after_environ_resolution_witness :
  let base : M dict := mret (<["model" := PyStr "mistral-small"]> ∅) in
  let w := world_of [("AZURE_MISTRAL_ENDPOINT", "https://x.example/")]
             (populated None None None) in
  let w' := (validate_environment ascii_headers_only w).1 in
  exists d : dict,
    _identifying_params base w' = (w', Return d)
    /\ d !! "azure_endpoint" = Some PyNone
    /\ endpoint (this w') = Some "https://x.example/".
Proof.
  intros base w w'.
  destruct (identifying_params_after_environ_resolution ascii_headers_only
              base w w' (<["model" := PyStr "mistral-small"]> ∅)
              eq_refl eq_refl eq_refl eq_refl)
    as (d & Hd & Hown & Hurl & _).
  exists d. split; [exact Hd |]. split; [exact Hown |].
  subst w'. rewrite Hurl. reflexivity.
Defined.
